(** * Relevance ranking in langchain: [SVMRetriever] and [DeepLake._search]

    A shallow embedding of
    - [langchain/retrievers/svm.py]      (module [Svm]), and
    - [langchain/vectorstores/deeplake.py], the two search paths
      [_search_tql] and [_search]       (module [DeepLake]),
    followed by the properties of the ranking core.

    Conventions.  Python [float]s and numpy [float64] entries are modelled
    as exact rationals ([Q]); the normalisation of the decision values is
    given a second time on binary64 floats (module [Float64]), where
    rounding and overflow show.  A Python [int] is a [Z]; a raised
    exception is the left injection of a sum.  External capabilities (the
    embedder, scikit-learn's [LinearSVC], [np.argsort], the Deep Lake
    store, the MMR helper) are section variables, with the part of their
    contract that a proof uses spelled out as a section hypothesis. *)

From Stdlib Require Import ZArith QArith Qminmax Lia List Permutation.
From Stdlib Require PrimFloat.
From stdpp Require Import base list gmap strings.

Open Scope Z_scope.

(** ** Python values shared by both files *)

(** The exception classes that the two files raise or let through. *)
Inductive exn : Set :=
| ImportError
| ValueError
| IndexError
| NotImplementedError.

Definition result (A : Type) : Type := exn + A.

Definition ret {A} (a : A) : result A := inr a.
Definition raise {A} (e : exn) : result A := inl e.

Definition bind {A B} (m : result A) (k : A -> result B) : result B :=
  match m with
  | inl e => inl e
  | inr a => k a
  end.

Declare Scope py_scope.
Delimit Scope py_scope with py.
Notation "'let!' x ':=' m 'in' k" := (bind m (fun x => k))
  (at level 10, x name, m at level 100, k at level 200) : py_scope.
Open Scope py_scope.

(** [langchain.schema.Document]: a text and a metadata dictionary.  The
    values of the dictionary are opaque to the ranking code and are kept as
    strings.  [Document(page_content=t)] leaves the metadata at its default,
    the empty dictionary. *)
Record Document : Type := mkDocument {
  page_content : string;
  metadata : gmap string string
}.

Definition Document_of_text (t : string) : Document := mkDocument t ∅.

(** [l[i]] on a Python list: a negative index counts from the end, an index
    out of range raises [IndexError]. *)
Definition py_getitem {A} (l : list A) (i : Z) : result A :=
  let n := Z.of_nat (length l) in
  let j := if i <? 0 then i + n else i in
  if (j <? 0) || (n <=? j) then raise IndexError
  else match l !! Z.to_nat j with
       | Some a => ret a
       | None => raise IndexError
       end.

(** [l[start:stop]]: negative bounds count from the end, and both bounds
    are clamped to [0 .. len(l)]. *)
Definition py_clamp (n i : Z) : Z :=
  let j := if i <? 0 then i + n else i in
  Z.max 0 (Z.min n j).

Definition py_slice {A} (l : list A) (start stop : Z) : list A :=
  let n := Z.of_nat (length l) in
  let a := py_clamp n start in
  let b := py_clamp n stop in
  take (Z.to_nat (b - a)) (drop (Z.to_nat a) l).

(** ** numpy arrays and the embedder interface *)

Definition Vector : Type := list Q.

(** A numpy array of rank one or two.  [Arr2 d rows] has shape
    [(len(rows), d)]. *)
Inductive ndarray : Type :=
| Arr1 (v : Vector)
| Arr2 (ncols : nat) (rows : list Vector).

Definition nrows (a : ndarray) : nat :=
  match a with
  | Arr1 v => length v
  | Arr2 _ rows => length rows
  end.

(** [np.array(rows)] on a list of lists of floats: the empty list gives the
    rank-one array of shape [(0,)]; rows of one common length give a matrix;
    ragged rows are refused. *)
Definition np_array (rows : list Vector) : result ndarray :=
  match rows with
  | [] => ret (Arr1 [])
  | r :: rest =>
      if forallb (fun r' => Nat.eqb (length r') (length r)) rest
      then ret (Arr2 (length r) rows)
      else raise ValueError
  end.

(** [langchain.embeddings.base.Embeddings], reduced to the one method the
    two files call. *)
Record Embeddings : Type := mkEmbeddings {
  embed_query : string -> Vector
}.

Module Svm.

(** *** numpy operations of the retriever *)

(** [np.concatenate([q[None, ...], index])]: both operands must have rank
    two and agree on the number of columns. *)
Definition np_concatenate_row (q : Vector) (index : ndarray)
  : result (list Vector) :=
  match index with
  | Arr1 _ => raise ValueError
  | Arr2 d rows =>
      if Nat.eqb d (length q) then ret (q :: rows) else raise ValueError
  end.

(** [y = np.zeros(n); y[0] = 1] *)
Definition labels (n : nat) : list Q :=
  match n with
  | O => []
  | S m => 1%Q :: repeat 0%Q m
  end.

Definition Qminb (a b : Q) : Q := if Qle_bool a b then a else b.
Definition Qmaxb (a b : Q) : Q := if Qle_bool a b then b else a.

(** [np.min] and [np.max]; both raise on an empty array. *)
Definition np_min (v : list Q) : result Q :=
  match v with
  | [] => raise ValueError
  | a :: rest => ret (fold_left Qminb rest a)
  end.

Definition np_max (v : list Q) : result Q :=
  match v with
  | [] => raise ValueError
  | a :: rest => ret (fold_left Qmaxb rest a)
  end.

(** [a[i]] on a rank-one array with a non-negative index. *)
Definition np_getitem (v : list Q) (i : nat) : result Q :=
  match v !! i with
  | Some a => ret a
  | None => raise IndexError
  end.

(** [np.where(a == x)[0][0]]: the first position holding [x]. *)
Fixpoint first_index (x : nat) (a : list nat) : option nat :=
  match a with
  | [] => None
  | y :: rest =>
      if Nat.eqb y x then Some O
      else option_map S (first_index x rest)
  end.

Definition np_where_first (x : nat) (a : list nat) : result nat :=
  match first_index x a with
  | Some i => ret i
  | None => raise IndexError
  end.

(** *** The retriever *)

Record SVMRetriever : Type := mkSVMRetriever {
  embeddings : Embeddings;
  index : ndarray;
  texts : list string;
  k : Z;
  relevancy_threshold : option Q
}.

(** [create_index]: [executor.map] returns the embeddings in the order of
    the contexts. *)
Definition create_index (contexts : list string) (e : Embeddings)
  : result ndarray :=
  np_array (map (embed_query e) contexts).

Definition from_texts (txts : list string) (e : Embeddings)
    (k : Z) (thr : option Q) : result SVMRetriever :=
  let! ix := create_index txts e in
  ret (mkSVMRetriever e ix txts k thr).

(** [texts, metadatas = zip( *pairs )] needs at least one pair. *)
Definition unzip_documents (documents : list Document)
  : result (list string * list (gmap string string)) :=
  match documents with
  | [] => raise ValueError
  | _ => ret (map page_content documents, map metadata documents)
  end.

Definition from_documents (documents : list Document) (e : Embeddings)
    (k : Z) (thr : option Q) : result SVMRetriever :=
  let! tm := unzip_documents documents in
  let '(txts, metadatas) := tm in
  from_texts txts e k thr.

(** The single swap of lines 95-97. *)
Definition swap_zero (sorted_ix : list nat) : result (list nat) :=
  let! zero_index := np_where_first O sorted_ix in
  if negb (Nat.eqb zero_index O) then
    match sorted_ix !! zero_index, sorted_ix !! O with
    | Some a, Some b => ret (<[zero_index := b]> (<[O := a]> sorted_ix))
    | _, _ => raise IndexError
    end
  else ret sorted_ix.

Definition epsilon : Q := 1 # 1000000.

(** Lines 99-100, in exact arithmetic; [Float64.normalize] below is the
    same two lines on floats. *)
Definition normalize (similarities : list Q) : result (list Q) :=
  let! hi := np_max similarities in
  let! lo := np_min similarities in
  let denominator := (hi - lo + epsilon)%Q in
  ret (map (fun s => ((s - lo) / denominator)%Q) similarities).

(** The loop of lines 102-108 over the rows of the slice. *)
Fixpoint top_k_results (txts : list string) (normalized : list Q)
    (thr : option Q) (rows : list nat) : result (list Document) :=
  match rows with
  | [] => ret []
  | row :: rest =>
      let! keep :=
        match thr with
        | None => ret true
        | Some t =>
            let! s := np_getitem normalized row in
            ret (Qle_bool t s)
        end in
      if keep : bool then
        let! t := py_getitem txts (Z.of_nat row - 1) in
        let! docs := top_k_results txts normalized thr rest in
        ret (Document_of_text t :: docs)
      else top_k_results txts normalized thr rest
  end.

Section Retrieval.

(** Whether [from sklearn import svm] succeeds. *)
Variable sklearn_installed : bool.

(** [LinearSVC(...).fit(x, y)] followed by [decision_function(x)]: one
    signed decision value per row, or the exception the fit raises. *)
Variable decision_function : list Vector -> list Q -> result (list Q).

(** [np.argsort]: the row numbers, rearranged. *)
Variable argsort : list Q -> list nat.

Definition _get_relevant_documents (self : SVMRetriever) (query : string)
  : result (list Document) :=
  if negb sklearn_installed then raise ImportError else
  let query_embeds := embed_query (embeddings self) query in
  let! x := np_concatenate_row query_embeds (index self) in
  let y := labels (length x) in
  let! similarities := decision_function x y in
  let sorted_ix := argsort (map Qopp similarities) in
  let! sorted_ix := swap_zero sorted_ix in
  let! normalized_similarities := normalize similarities in
  top_k_results (texts self) normalized_similarities
    (relevancy_threshold self) (py_slice sorted_ix 1 (k self + 1)).

Definition _aget_relevant_documents (self : SVMRetriever) (query : string)
  : result (list Document) :=
  raise NotImplementedError.

End Retrieval.

(** The retriever with its [relevancy_threshold] field replaced. *)
Definition with_relevancy_threshold (thr : option Q) (self : SVMRetriever)
  : SVMRetriever :=
  mkSVMRetriever (embeddings self) (index self) (texts self) (k self) thr.

(** The condition of lines 104-107, for a row inside the score array. *)
Definition meets_threshold (thr : option Q) (normalized : list Q)
    (row : nat) : bool :=
  match thr with
  | None => true
  | Some t =>
      match normalized !! row with
      | Some s => Qle_bool t s
      | None => false
      end
  end.

(** *** Reference instances of the external capabilities

    Used to run the retriever on concrete inputs. *)

(** A stable [argsort]: insertion of the row numbers by ascending key. *)
Fixpoint insert_ix (v : list Q) (i : nat) (sorted : list nat) : list nat :=
  match sorted with
  | [] => [i]
  | j :: rest =>
      if Qle_bool (nth i v 0%Q) (nth j v 0%Q) then i :: j :: rest
      else j :: insert_ix v i rest
  end.

Definition stable_argsort (v : list Q) : list nat :=
  fold_right (insert_ix v) [] (seq 0 (length v)).

Definition dot (a b : Vector) : Q :=
  fold_right Qplus 0%Q (zip_with Qmult a b).

(** A stand-in for the fitted classifier: it refuses a training set with a
    single class, as the liblinear solver does, and otherwise scores every
    row by its inner product with row 0. *)
Definition dot_decision_function (x : list Vector) (y : list Q)
  : result (list Q) :=
  if existsb (Qeq_bool 1) y && existsb (Qeq_bool 0) y
  then ret (map (fun row => dot row (hd [] x)) x)
  else raise ValueError.

(** A stand-in for one fitted classifier, of weight vector [w]: it refuses
    a training set with a single class and otherwise scores every row by
    its inner product with [w].  Every call of the retriever fits a new
    classifier (lines 82-85, no [random_state]); two fits of the same rows
    need not end on the same weights. *)
Definition linear_decision_function (w : Vector) (x : list Vector)
    (y : list Q) : result (list Q) :=
  if existsb (Qeq_bool 1) y && existsb (Qeq_bool 0) y
  then ret (map (fun row => dot row w) x)
  else raise ValueError.

End Svm.

Module Float64.

Import PrimFloat.

(** *** Lines 99-100 on binary64 floats

    The arithmetic of numpy on [float64]: every operation is rounded to
    the nearest float, overflows to an infinity, and [inf / inf] is NaN. *)

(** The float that Python reads [1e-6] as. *)
Definition epsilon : float := 0x1.0c6f7a0b5ed8dp-20%float.

(** One step of [np.max] and of [np.min]; both let a NaN through. *)
Definition max_step (acc x : float) : float :=
  if is_nan acc then acc
  else if is_nan x then x
  else if (acc <? x)%float then x else acc.

Definition min_step (acc x : float) : float :=
  if is_nan acc then acc
  else if is_nan x then x
  else if (x <? acc)%float then x else acc.

Definition np_max (v : list float) : result float :=
  match v with
  | [] => raise ValueError
  | a :: rest => ret (fold_left max_step rest a)
  end.

Definition np_min (v : list float) : result float :=
  match v with
  | [] => raise ValueError
  | a :: rest => ret (fold_left min_step rest a)
  end.

(** Lines 99-100. *)
Definition normalize (similarities : list float) : result (list float) :=
  let! hi := np_max similarities in
  let! lo := np_min similarities in
  let denominator := (hi - lo + epsilon)%float in
  ret (map (fun s => ((s - lo) / denominator)%float) similarities).



End Float64.

Module DeepLake.

(** *** Values crossing the interface of [_search] *)

(** What a caller passes as [embedding], or what an embedding function
    returns: a list of floats, a list of lists of floats, or an array. *)
Inductive embedding_value : Type :=
| PyList (v : Vector)
| PyNested (rows : list Vector)
| NdArray (a : ndarray).

(** The [embedding_function] argument: an [Embeddings] object, whose
    [embed_query] is taken, or any other callable. *)
Inductive embedding_function_arg : Type :=
| AsEmbeddings (e : Embeddings)
| AsCallable (f : string -> embedding_value).

(** The two ways [self.vectorstore.search] is called. *)
Inductive search_request : Type :=
| TqlRequest (query : string) (exec_option : option string)
| EmbeddingRequest (embedding : option ndarray) (k : option Z)
    (distance_metric : string) (filter : option (gmap string string))
    (exec_option : option string).

(** The dictionary the store returns, by key. *)
Record search_result : Type := mkSearchResult {
  res_score : list Q;
  res_embedding : list Vector;
  res_metadata : list (gmap string string);
  res_text : list string
}.

Inductive search_output : Type :=
| Docs (docs : list Document)
| ScoredDocs (pairs : list (Document * Q)).

Definition output_length (o : search_output) : nat :=
  match o with
  | Docs docs => length docs
  | ScoredDocs pairs => length pairs
  end.

(** Which embedding function a call went to. *)
Inductive embedder_source : Set := Explicit | Default.

(** *** Calls to collaborators, in the order they happen *)

Inductive event : Type :=
| EmbedCall (src : embedder_source) (query : string)
| SearchCall (req : search_request)
| MmrCall (query_embedding : option ndarray) (candidates : list Vector)
    (k : Z) (lambda_mult : Q).

Definition M (A : Type) : Type := list event * result A.

Definition mret {A} (a : A) : M A := ([], inr a).
Definition mraise {A} (e : exn) : M A := ([], inl e).
Definition lift {A} (r : result A) : M A := ([], r).
Definition emit (ev : event) : M unit := ([ev], inr tt).

Definition mbind {A B} (m : M A) (k : A -> M B) : M B :=
  match m with
  | (t, inl e) => (t, inl e)
  | (t, inr a) => let '(t', r) := k a in (t ++ t', r)
  end.

Notation "'do!' x ':=' m 'in' k" := (mbind m (fun x => k))
  (at level 10, x name, m at level 100, k at level 200) : py_scope.

Definition is_search (ev : event) : option search_request :=
  match ev with
  | SearchCall req => Some req
  | _ => None
  end.

Definition is_embed (ev : event) : option (embedder_source * string) :=
  match ev with
  | EmbedCall src q => Some (src, q)
  | _ => None
  end.

Definition is_mmr (ev : event) : option Z :=
  match ev with
  | MmrCall _ _ k _ => Some k
  | _ => None
  end.

(** The store requests, the embedding calls and the MMR target counts of a
    run. *)
Definition search_requests (t : list event) : list search_request :=
  omap is_search t.
Definition embed_calls (t : list event) : list (embedder_source * string) :=
  omap is_embed t.
Definition mmr_targets (t : list event) : list Z :=
  omap is_mmr t.

(** Truth value of an optional string: [None] and the empty string are
    false. *)
Definition truthy (s : option string) : option string :=
  match s with
  | Some EmptyString => None
  | other => other
  end.

(** [**kwargs], by the two keys [_search] reads. *)
Record kwargs : Type := mkKwargs {
  tql_query : option string;
  lambda_mult : option Q
}.

(** The arguments of [_search], with the defaults of its signature in
    [default_args]. *)
Record search_args : Type := mkSearchArgs {
  query : option string;
  embedding_arg : option embedding_value;
  embedding_function : option embedding_function_arg;
  k : Z;
  distance_metric : string;
  use_maximal_marginal_relevance : bool;
  fetch_k : option Z;
  filter : option (gmap string string);
  return_score : bool;
  exec_option : option string;
  kw : kwargs
}.

Definition default_args : search_args :=
  mkSearchArgs None None None 4 "L2" false (Some 20) None false None
    (mkKwargs None None).

Record DeepLake : Type := mkDeepLake {
  _embedding_function : option Embeddings
}.

(** Lines 350-353: a list becomes an array, and of a matrix only the first
    row is kept.  (The cast to [float32] is the identity on rationals.) *)
Definition to_query_array (e : embedding_value) : result ndarray :=
  match e with
  | PyList v => ret (Arr1 v)
  | PyNested rows =>
      let! a := np_array rows in
      match a with
      | Arr2 _ (r :: _) => ret (Arr1 r)
      | Arr2 _ [] => raise IndexError
      | Arr1 v => ret (Arr1 v)
      end
  | NdArray a => ret a
  end.

(** [[xs[i] for i in indices]] *)
Fixpoint gather {A} (xs : list A) (indices : list nat) : result (list A) :=
  match indices with
  | [] => ret []
  | i :: rest =>
      let! x := py_getitem xs (Z.of_nat i) in
      let! tl := gather xs rest in
      ret (x :: tl)
  end.

Section Search.

(** [self.vectorstore.search]. *)
Variable vectorstore_search : search_request -> result search_result.

(** [langchain.vectorstores.utils.maximal_marginal_relevance]: the
    positions of the selected candidates, in selection order. *)
Variable maximal_marginal_relevance :
  option ndarray -> list Vector -> Z -> Q -> result (list nat).

Definition call_search (req : search_request) : M search_result :=
  do! _ := emit (SearchCall req) in
  lift (vectorstore_search req).

Definition call_embedder (src : embedder_source)
    (f : string -> embedding_value) (q : string) : M embedding_value :=
  do! _ := emit (EmbedCall src q) in
  mret (f q).

Definition call_mmr (e : option ndarray) (candidates : list Vector)
    (k : Z) (lam : Q) : M (list nat) :=
  do! _ := emit (MmrCall e candidates k lam) in
  lift (maximal_marginal_relevance e candidates k lam).

(** [_search_tql].  Of the keyword arguments that [_search] forwards, the
    first one is [return_score], and it is the one inspected after the
    store has answered. *)
Definition _search_tql (self : DeepLake) (tql : string)
    (exec_option : option string) (return_score : bool)
  : M search_output :=
  do! result := call_search (TqlRequest tql exec_option) in
  let metadatas := res_metadata result in
  let texts := res_text result in
  let docs := zip_with mkDocument texts metadatas in
  if return_score then mraise ValueError
  else mret (Docs docs).

(** Lines 332-335: of an [Embeddings] object the method [embed_query] is
    taken, any other callable is taken as it is. *)
Definition as_callable (f : embedding_function_arg)
  : string -> embedding_value :=
  match f with
  | AsEmbeddings e => fun q => PyList (embed_query e q)
  | AsCallable g => g
  end.

(** Lines 331-339: the embedding function that would be used. *)
Definition resolve_embedding_function (self : DeepLake) (a : search_args)
  : option (embedder_source * (string -> embedding_value)) :=
  match embedding_function a with
  | Some f => Some (Explicit, as_callable f)
  | None =>
      match _embedding_function self with
      | Some e => Some (Default, as_callable (AsEmbeddings e))
      | None => None
      end
  end.

(** Lines 341-348: the embedding itself. *)
Definition resolve_embedding (self : DeepLake) (a : search_args)
  : M (option embedding_value) :=
  match embedding_arg a with
  | Some e => mret (Some e)
  | None =>
      match resolve_embedding_function self a with
      | None => mraise ValueError
      | Some (src, f) =>
          match truthy (query a) with
          | Some q =>
              do! e := call_embedder src f q in
              mret (Some e)
          | None => mret None
          end
      end
  end.

(** [kwargs.get("lambda_mult", 0.5)] *)
Definition get_lambda_mult (kw : kwargs) : Q :=
  match lambda_mult kw with
  | Some l => l
  | None => (1 # 2)%Q
  end.

(** Lines 350-353, when there is an embedding. *)
Definition convert_embedding (embedding : option embedding_value)
  : M (option ndarray) :=
  match embedding with
  | Some e => do! arr := lift (to_query_array e) in mret (Some arr)
  | None => mret None
  end.

(** The request of lines 355-362. *)
Definition embedding_request (a : search_args) (embedding : option ndarray)
  : search_request :=
  EmbeddingRequest embedding
    (if use_maximal_marginal_relevance a then fetch_k a else Some (k a))
    (distance_metric a) (filter a) (exec_option a).

(** Lines 355-393: the store is queried, the candidates are optionally
    narrowed by MMR, and the output is assembled. *)
Definition search_and_select (self : DeepLake) (a : search_args)
    (embedding : option ndarray) : M search_output :=
  do! result := call_search (embedding_request a embedding) in
  let scores := res_score result in
  let embeddings := res_embedding result in
  let metadatas := res_metadata result in
  let texts := res_text result in
  do! selected :=
    if use_maximal_marginal_relevance a then
      let lambda_mult := get_lambda_mult (kw a) in
      do! indices :=
        call_mmr embedding embeddings
          (Z.min (k a) (Z.of_nat (length texts))) lambda_mult in
      do! scores := lift (gather scores indices) in
      do! texts := lift (gather texts indices) in
      do! metadatas := lift (gather metadatas indices) in
      mret (scores, texts, metadatas)
    else mret (scores, texts, metadatas) in
  let '(scores, texts, metadatas) := selected in
  let docs := zip_with mkDocument texts metadatas in
  if return_score a then mret (ScoredDocs (zip docs scores))
  else mret (Docs docs).

Definition _search (self : DeepLake) (a : search_args) : M search_output :=
  match truthy (tql_query (kw a)) with
  | Some tql => _search_tql self tql (exec_option a) (return_score a)
  | None =>
      do! embedding := resolve_embedding self a in
      do! embedding := convert_embedding embedding in
      search_and_select self a embedding
  end.

End Search.

End DeepLake.

Module Mmr.

(** *** [maximal_marginal_relevance] *)

Section Select.

(** Similarity of two vectors (cosine similarity unless otherwise
    configured). *)
Variable similarity : Vector -> Vector -> Q.

Variable query : Vector.
Variable candidates : list Vector.
Variable lambda : Q.

Definition candidate (i : nat) : Vector := nth i candidates [].

(** Modelled from the spec: the helper
    [langchain.vectorstores.utils.maximal_marginal_relevance] is not among
    the sources; this is step 3a of the selector, the maximum similarity
    between candidate [i] and every already-selected candidate, 0 if none
    is selected yet. *)
Definition redundancy (selected : list nat) (i : nat) : Q :=
  match selected with
  | [] => 0%Q
  | j :: rest =>
      fold_left Svm.Qmaxb
        (map (fun j' => similarity (candidate i) (candidate j')) rest)
        (similarity (candidate i) (candidate j))
  end.

(** Modelled from the spec: step 3b of the absent helper,
    [lambda * similarity(query, i) - (1 - lambda) * redundancy(i)]. *)
Definition combined_score (selected : list nat) (i : nat) : Q :=
  (lambda * similarity query (candidate i)
   - (1 - lambda) * redundancy selected i)%Q.

(** Modelled from the spec: step 3c of the absent helper, the remaining
    candidate with the highest combined score, the first one in candidate
    order on a tie. *)
Fixpoint argmax (f : nat -> Q) (best : nat) (rest : list nat) : nat :=
  match rest with
  | [] => best
  | i :: rest' =>
      if Qle_bool (f i) (f best) then argmax f best rest'
      else argmax f i rest'
  end.

(** Modelled from the spec: the loop of step 3 of the absent helper, run
    until [budget] more items are selected or no candidate remains. *)
Fixpoint select_loop (budget : nat) (selected remaining : list nat)
  : list nat :=
  match budget, remaining with
  | S budget', i :: rest =>
      let best := argmax (combined_score selected) i rest in
      select_loop budget' (selected ++ [best])
        (List.filter (fun j => negb (Nat.eqb j best)) remaining)
  | _, _ => selected
  end.

(** Modelled from the spec: the absent helper's public operation, the
    positions of the selected candidates in selection order. *)
Definition select (k : Z) : list nat :=
  select_loop (Z.to_nat k) [] (seq 0 (length candidates)).

End Select.

(** Modelled from the spec: the square root that the cosine similarity of
    step 1 needs, on rationals: rounded down to a multiple of [2^-64 / d]
    for a radicand of denominator [d], and 0 for a negative one. *)
Definition sqrt_scale : Z := 2 ^ 64.

Definition Qsqrt (x : Q) : Q :=
  Qmake (Z.sqrt (Qnum x * Zpos (Qden x) * sqrt_scale * sqrt_scale))
    (Qden x * Z.to_pos sqrt_scale).

(** Modelled from the spec: step 1 of the absent helper, the cosine
    similarity [a . b / (|a| |b|)] of two vectors, with the norms taken by
    [Qsqrt]; a vector of norm zero has similarity 0 with every vector. *)
Definition cosine_similarity (a b : Vector) : Q :=
  (Svm.dot a b / (Qsqrt (Svm.dot a a) * Qsqrt (Svm.dot b b)))%Q.

(** Modelled from the spec: the absent helper as [_search] calls it, with
    the cosine similarity; the spec presupposes a query vector, so anything
    else is refused. *)
Definition maximal_marginal_relevance (e : option ndarray)
    (candidates : list Vector) (k : Z) (lambda_mult : Q)
  : result (list nat) :=
  match e with
  | Some (Arr1 q) =>
      ret (select cosine_similarity q candidates lambda_mult k)
  | _ => raise ValueError
  end.

End Mmr.

Module DeepLakeApi.

(** *** The public search methods of [DeepLake]

    A call is given by its keyword arguments (a positional argument is the
    keyword of its position).  [None] in a field is an absent key; for a
    parameter that accepts [None], [Some None] is the key passed as
    [None].  Keys that no signature names are swallowed by [**kwargs] of
    [_search] and are left out. *)

Record keywords : Type := mkKeywords {
  kw_query : option (option string);
  kw_embedding : option (option DeepLake.embedding_value);
  kw_embedding_function : option (option DeepLake.embedding_function_arg);
  kw_k : option Z;
  kw_distance_metric : option string;
  kw_use_maximal_marginal_relevance : option bool;
  kw_fetch_k : option (option Z);
  kw_filter : option (option (gmap string string));
  kw_return_score : option bool;
  kw_exec_option : option (option string);
  kw_tql_query : option (option string);
  kw_lambda_mult : option Q
}.

Definition no_keywords : keywords :=
  mkKeywords None None None None None None None None None None None None.

(** A call either fails to bind its arguments ([TypeError]: a required
    argument is missing, or a keyword is given twice) or runs the body. *)
Inductive outcome (A : Type) : Type :=
| TypeError
| Ran (m : DeepLake.M A).

Arguments TypeError {A}.
Arguments Ran {A} m.

(** The value of an optional parameter: absent and [None] are the same. *)
Definition flat {A} (o : option (option A)) : option A :=
  match o with
  | Some v => v
  | None => None
  end.

Definition present {A} (o : option A) : bool :=
  match o with
  | Some _ => true
  | None => false
  end.

(** The arguments [_search] sees for the keywords [c] once [query],
    [embedding], [k], [use_maximal_marginal_relevance], [fetch_k],
    [return_score], [exec_option] and [lambda_mult] are fixed by the caller;
    the others take the value in [c] or the default of the signature. *)
Definition bind_search (c : keywords) (query : option string)
    (embedding : option DeepLake.embedding_value) (k : Z) (mmr : bool)
    (fetch_k : option Z) (return_score : bool) (exec_option : option string)
    (lambda_mult : option Q) : DeepLake.search_args :=
  DeepLake.mkSearchArgs query embedding (flat (kw_embedding_function c)) k
    (default "L2" (kw_distance_metric c)) mmr fetch_k (flat (kw_filter c))
    return_score exec_option
    (DeepLake.mkKwargs (flat (kw_tql_query c)) lambda_mult).

Section Api.

Variable vectorstore_search :
  DeepLake.search_request -> result DeepLake.search_result.
Variable maximal_marginal_relevance :
  option ndarray -> list Vector -> Z -> Q -> result (list nat).

Abbreviation _search :=
  (DeepLake._search vectorstore_search maximal_marginal_relevance).

(** [similarity_search(self, query, k=4, **kwargs)]:
    [_search(query=query, k=k, use_maximal_marginal_relevance=False,
    return_score=False, **kwargs)]. *)
Definition similarity_search (self : DeepLake.DeepLake) (c : keywords)
  : outcome DeepLake.search_output :=
  match kw_query c with
  | None => TypeError
  | Some query =>
      if present (kw_use_maximal_marginal_relevance c)
         || present (kw_return_score c)
      then TypeError
      else Ran (_search self
                  (bind_search c query (flat (kw_embedding c))
                     (default 4 (kw_k c)) false
                     (default (Some 20) (kw_fetch_k c)) false
                     (flat (kw_exec_option c)) (kw_lambda_mult c)))
  end.

(** [similarity_search_by_vector(self, embedding, k=4, **kwargs)]:
    [_search(embedding=embedding, k=k,
    use_maximal_marginal_relevance=False, return_score=False, **kwargs)]. *)
Definition similarity_search_by_vector (self : DeepLake.DeepLake)
    (c : keywords) : outcome DeepLake.search_output :=
  match kw_embedding c with
  | None => TypeError
  | Some embedding =>
      if present (kw_use_maximal_marginal_relevance c)
         || present (kw_return_score c)
      then TypeError
      else Ran (_search self
                  (bind_search c (flat (kw_query c)) embedding
                     (default 4 (kw_k c)) false
                     (default (Some 20) (kw_fetch_k c)) false
                     (flat (kw_exec_option c)) (kw_lambda_mult c)))
  end.

(** [similarity_search_with_score(self, query, k=4, **kwargs)]:
    [_search(query=query, k=k, return_score=True, **kwargs)]. *)
Definition similarity_search_with_score (self : DeepLake.DeepLake)
    (c : keywords) : outcome DeepLake.search_output :=
  match kw_query c with
  | None => TypeError
  | Some query =>
      if present (kw_return_score c) then TypeError
      else Ran (_search self
                  (bind_search c query (flat (kw_embedding c))
                     (default 4 (kw_k c))
                     (default false (kw_use_maximal_marginal_relevance c))
                     (default (Some 20) (kw_fetch_k c)) true
                     (flat (kw_exec_option c)) (kw_lambda_mult c)))
  end.

(** [max_marginal_relevance_search_by_vector(self, embedding, k=4,
    fetch_k=20, lambda_mult=0.5, exec_option=None, **kwargs)]:
    [_search(embedding=embedding, k=k, fetch_k=fetch_k,
    use_maximal_marginal_relevance=True, lambda_mult=lambda_mult,
    exec_option=exec_option, **kwargs)]. *)
Definition max_marginal_relevance_search_by_vector
    (self : DeepLake.DeepLake) (c : keywords)
  : outcome DeepLake.search_output :=
  match kw_embedding c with
  | None => TypeError
  | Some embedding =>
      if present (kw_use_maximal_marginal_relevance c) then TypeError
      else Ran (_search self
                  (bind_search c (flat (kw_query c)) embedding
                     (default 4 (kw_k c)) true
                     (default (Some 20) (kw_fetch_k c))
                     (default false (kw_return_score c))
                     (flat (kw_exec_option c))
                     (Some (default (1 # 2)%Q (kw_lambda_mult c)))))
  end.

End Api.

End DeepLakeApi.

Module Ingest.

(** *** [DeepLake.add_texts] *)

(** What [add_texts] can raise: the two [ValueError]s of its body, told
    apart by their message, a [TypeError] ([list(None)], [len] of an
    iterator), the [AttributeError] of [None.embed_documents], and whatever
    the store raises. *)
Inductive add_error : Type :=
| ValueErrorMsg (message : string)
| TypeErr
| AttributeError
| StoreRaised (e : exn).

Definition texts_none_message : string :=
  "`texts` parameter shouldn't be None.".
Definition texts_empty_message : string :=
  "`texts` parameter shouldn't be empty.".

(** The [texts] argument: [None], a list, another collection that can be
    iterated again (a tuple), or a one-shot iterator with the items it
    still holds. *)
Inductive iterable : Type :=
| PyNone
| PyListOf (items : list string)
| PyTupleOf (items : list string)
| PyIteratorOf (remaining : list string).

(** [list(x)]: the items, and [x] afterwards; an iterator is left
    exhausted. *)
Definition py_list (x : iterable) : (add_error + list string) * iterable :=
  match x with
  | PyNone => (inl TypeErr, x)
  | PyListOf l => (inr l, x)
  | PyTupleOf l => (inr l, x)
  | PyIteratorOf l => (inr l, PyIteratorOf [])
  end.

(** [isinstance(x, list)] *)
Definition is_list (x : iterable) : bool :=
  match x with
  | PyListOf _ => true
  | _ => false
  end.

(** [len(x)] *)
Definition py_len (x : iterable) : add_error + nat :=
  match x with
  | PyListOf l => inr (length l)
  | PyTupleOf l => inr (length l)
  | PyNone => inl TypeErr
  | PyIteratorOf _ => inl TypeErr
  end.

(** The keyword arguments of [self.vectorstore.add]; [embedding_function]
    is the [embed_documents] method of the given object, and [ids] is the
    name of the keyword under which the ids travel, with the ids. *)
Record add_request : Type := mkAddRequest {
  add_text : iterable;
  add_metadata : list (gmap string string);
  add_embedding_data : iterable;
  add_embedding_tensor : string;
  add_embedding_function : Embeddings;
  add_return_ids : bool;
  add_ids : option (string * list string)
}.

(** The attributes of the object that [add_texts] reads. *)
Record handle : Type := mkHandle {
  _embedding_function : option Embeddings;
  _id_tensor_name : string
}.

(** Lines 179-184: [kwargs], holding the ids when there are any. *)
Definition ids_kwargs (self : handle) (ids : option (list string))
  : option (string * list string) :=
  match ids with
  | Some (i :: rest) =>
      if String.eqb (_id_tensor_name self) "ids"
      then Some ("ids", i :: rest)
      else Some ("id", i :: rest)
  | _ => None
  end.

(** Lines 186-187: [metadatas = [{}] * len(list(texts))] when [metadatas]
    is [None]; [texts] is iterated once. *)
Definition default_metadatas (texts : iterable)
    (metadatas : option (list (gmap string string)))
  : add_error + (list (gmap string string) * iterable) :=
  match metadatas with
  | None =>
      match py_list texts with
      | (inl err, _) => inl err
      | (inr items, texts') => inr (repeat ∅ (length items), texts')
      end
  | Some m => inr (m, texts)
  end.

(** Lines 189-190: [if not isinstance(texts, list): texts = list(texts)]. *)
Definition as_list (texts : iterable) : add_error + iterable :=
  if is_list texts then inr texts
  else match fst (py_list texts) with
       | inl err => inl err
       | inr items => inr (PyListOf items)
       end.

(** Lines 192-195. *)
Definition check_texts (texts : iterable) : add_error + unit :=
  match texts with
  | PyNone => inl (ValueErrorMsg texts_none_message)
  | _ =>
      match py_len texts with
      | inl err => inl err
      | inr n =>
          if Nat.eqb n 0 then inl (ValueErrorMsg texts_empty_message)
          else inr tt
      end
  end.

(** Lines 179-195 and the evaluation of the arguments of the call of lines
    197-206: the request that is sent, or the exception raised before.
    [kwargs] holds no [embedding_function], so the embedder is always
    [self._embedding_function.embed_documents]. *)
Definition prepare_add (self : handle) (texts : iterable)
    (metadatas : option (list (gmap string string)))
    (ids : option (list string)) : add_error + add_request :=
  let kwargs := ids_kwargs self ids in
  match default_metadatas texts metadatas with
  | inl err => inl err
  | inr (metadatas, texts) =>
      match as_list texts with
      | inl err => inl err
      | inr texts =>
          match check_texts texts with
          | inl err => inl err
          | inr _ =>
              match _embedding_function self with
              | None => inl AttributeError
              | Some e =>
                  inr (mkAddRequest texts metadatas texts "embedding" e true
                         kwargs)
              end
          end
      end
  end.

Section Add.

(** [self.vectorstore.add]: the ids of the added rows. *)
Variable vectorstore_add : add_request -> result (list string).

Definition add_texts (self : handle) (texts : iterable)
    (metadatas : option (list (gmap string string)))
    (ids : option (list string)) : add_error + list string :=
  match prepare_add self texts metadatas ids with
  | inl err => inl err
  | inr req =>
      match vectorstore_add req with
      | inl e => inl (StoreRaised e)
      | inr new_ids => inr new_ids
      end
  end.

End Add.

End Ingest.

(** ** Concrete inputs

    The retriever and the store of the scenarios: three texts embedded in
    the plane, and a store holding three candidates. *)

Module Examples.

Definition toy_embeddings : Embeddings :=
  mkEmbeddings (fun s =>
    if String.eqb s "kitten" then [1; 0]%Q
    else if String.eqb s "cat" then [2; 0]%Q
    else if String.eqb s "dog" then [0; 1]%Q
    else [1 # 2; 1 # 2]%Q).

Definition toy_retriever : Svm.SVMRetriever :=
  Svm.mkSVMRetriever toy_embeddings
    (Arr2 2 [[2; 0]; [0; 1]; [1 # 2; 1 # 2]]%Q)
    ["cat"; "dog"; "car"] 2 None.

Definition toy_documents : list Document :=
  [mkDocument "cat" {["source" := "pets.txt"]};
   mkDocument "dog" {["source" := "pets.txt"]};
   mkDocument "car" {["source" := "garage.txt"]}].

(** What [from_texts([], ...)] builds. *)
Definition empty_retriever : Svm.SVMRetriever :=
  Svm.mkSVMRetriever toy_embeddings (Arr1 []) [] 4 None.

(** One index row of the wrong width for the embedder. *)
Definition mismatched_retriever : Svm.SVMRetriever :=
  Svm.mkSVMRetriever toy_embeddings (Arr2 3 [[1; 1; 1]]%Q) ["wide"] 4 None.

Definition toy_result : DeepLake.search_result :=
  DeepLake.mkSearchResult
    [1 # 10; 2 # 10; 9 # 10]%Q
    [[1; 0]; [99 # 100; 1 # 100]; [0; 1]]%Q
    [{["id" := "a"]}; {["id" := "b"]}; {["id" := "c"]}]
    ["alpha"; "beta"; "gamma"].

(** A store holding three candidates: it answers an embedding request
    with the first [k] of them and a TQL request with all of them. *)
Definition toy_store (req : DeepLake.search_request)
  : result DeepLake.search_result :=
  match req with
  | DeepLake.EmbeddingRequest _ (Some k) _ _ _ =>
      let n := Z.to_nat k in
      ret (DeepLake.mkSearchResult
             (take n (DeepLake.res_score toy_result))
             (take n (DeepLake.res_embedding toy_result))
             (take n (DeepLake.res_metadata toy_result))
             (take n (DeepLake.res_text toy_result)))
  | _ => ret toy_result
  end.

Definition toy_deeplake : DeepLake.DeepLake :=
  DeepLake.mkDeepLake (Some toy_embeddings).

Definition bare_deeplake : DeepLake.DeepLake := DeepLake.mkDeepLake None.

Definition shout (q : string) : DeepLake.embedding_value :=
  DeepLake.PyList [0; 1]%Q.

(** [_search(embedding=[1, 0], k=2, fetch_k=3, lambda_mult=0.3,
    use_maximal_marginal_relevance=True, return_score=True)] *)
Definition mmr_args : DeepLake.search_args :=
  DeepLake.mkSearchArgs None (Some (DeepLake.PyList [1; 0]%Q)) None 2 "L2"
    true (Some 3) None true None (DeepLake.mkKwargs None (Some (3 # 10)%Q)).

(** [_search(query="kitten", k=2)] *)
Definition query_args : DeepLake.search_args :=
  DeepLake.mkSearchArgs (Some "kitten") None None 2 "L2" false (Some 20)
    None false None (DeepLake.mkKwargs None None).

(** [_search(query=None, embedding_function=shout)] *)
Definition no_query_args : DeepLake.search_args :=
  DeepLake.mkSearchArgs None None (Some (DeepLake.AsCallable shout)) 4 "L2"
    false (Some 20) None false None (DeepLake.mkKwargs None None).

(** [_search(query="", embedding_function=shout)] *)
Definition empty_query_args : DeepLake.search_args :=
  DeepLake.mkSearchArgs (Some "") None (Some (DeepLake.AsCallable shout)) 4
    "L2" false (Some 20) None false None (DeepLake.mkKwargs None None).

(** [_search(tql_query="select * where id == 'a'")] *)
Definition tql_args : DeepLake.search_args :=
  DeepLake.mkSearchArgs None None None 4 "L2" false (Some 20) None false None
    (DeepLake.mkKwargs (Some "select * where id == 'a'") None).


(** [_search(query=None, embedding_function=shout, return_score=True,
    tql_query="select * where id == 'a'")] *)
Definition no_query_tql_args : DeepLake.search_args :=
  DeepLake.mkSearchArgs None None (Some (DeepLake.AsCallable shout)) 4 "L2"
    false (Some 20) None true None
    (DeepLake.mkKwargs (Some "select * where id == 'a'") None).

(** An empty matrix of the right width. *)
Definition empty_matrix_retriever : Svm.SVMRetriever :=
  Svm.mkSVMRetriever toy_embeddings (Arr2 2 []) [] 4 None.

(** The reference solver and sort, and the reference store and selector. *)
Definition toy_run (self : Svm.SVMRetriever) (query : string)
  : result (list Document) :=
  Svm._get_relevant_documents true Svm.dot_decision_function
    Svm.stable_argsort self query.

(** The same call when the fit ends on the weight vector [w]. *)
Definition toy_run_with (w : Vector) (self : Svm.SVMRetriever)
    (query : string) : result (list Document) :=
  Svm._get_relevant_documents true (Svm.linear_decision_function w)
    Svm.stable_argsort self query.

Definition toy_search (self : DeepLake.DeepLake) (a : DeepLake.search_args)
  : DeepLake.M DeepLake.search_output :=
  DeepLake._search toy_store Mmr.maximal_marginal_relevance self a.

End Examples.

Module MoreExamples.

(** [SVMRetriever(..., k=-2)] on the toy index. *)
Definition negative_k_retriever : Svm.SVMRetriever :=
  Svm.mkSVMRetriever Examples.toy_embeddings
    (Arr2 2 [[2; 0]; [0; 1]; [1 # 2; 1 # 2]]%Q)
    ["cat"; "dog"; "car"] (-2) None.


(** [similarity_search_by_vector(embedding=[1, 0], k=2)] and
    [max_marginal_relevance_search_by_vector(embedding=[1, 0], k=2,
    fetch_k=3, lambda_mult=0.3)] *)
Definition vector_keywords : DeepLakeApi.keywords :=
  DeepLakeApi.mkKeywords None (Some (Some (DeepLake.PyList [1; 0]%Q))) None
    (Some 2) None None (Some (Some 3)) None None None None
    (Some (3 # 10)%Q).

(** [similarity_search(query="kitten")] *)
Definition query_keywords : DeepLakeApi.keywords :=
  DeepLakeApi.mkKeywords (Some (Some "kitten")) None None None None None
    None None None None None None.

(** [similarity_search_with_score(query=None,
    tql_query="select * where id == 'a'")] *)
Definition tql_keywords : DeepLakeApi.keywords :=
  DeepLakeApi.mkKeywords (Some None) None None None None None None None None
    None (Some (Some "select * where id == 'a'")) None.

Definition toy_handle : Ingest.handle :=
  Ingest.mkHandle (Some Examples.toy_embeddings) "ids".

(** A store that numbers the rows it is given. *)
Definition toy_add (req : Ingest.add_request) : result (list string) :=
  match Ingest.add_text req with
  | Ingest.PyListOf items => ret (map (fun _ => "row") items)
  | _ => raise ValueError
  end.

End MoreExamples.

Module Float64Examples.

Import PrimFloat.





End Float64Examples.

(** * Properties *)

(** ** Python lists *)

Lemma bind_inr {A B} (m : result A) (f : A -> result B) (b : B) :
  bind m f = inr b <-> exists a, m = inr a /\ f a = inr b.
Proof.
  destruct m as [e|a]; simpl; split.
  - discriminate.
  - intros (a & Ha & _). discriminate.
  - eauto.
  - intros (a' & Ha & Hf). congruence.
Qed.

Ltac inv_bind H :=
  let a := fresh "a" in
  let Ha := fresh "Hbind" in
  apply bind_inr in H; destruct H as (a & Ha & H).

Lemma py_getitem_pred {A} (l : list A) (row : nat) (x : A) :
  (1 <= row)%nat ->
  py_getitem l (Z.of_nat row - 1) = inr x <-> l !! (row - 1)%nat = Some x.
Proof.
  intros Hrow. unfold py_getitem, raise, ret.
  assert (Hlt : (Z.of_nat row - 1 <? 0) = false) by (apply Z.ltb_ge; lia).
  cbv zeta. rewrite Hlt. cbv iota. rewrite Hlt.
  replace (Z.to_nat (Z.of_nat row - 1)) with (row - 1)%nat by lia.
  simpl. destruct (Z.of_nat (length l) <=? Z.of_nat row - 1) eqn:Hle.
  - apply Z.leb_le in Hle. split; [discriminate|].
    intros Hl. apply lookup_lt_Some in Hl. lia.
  - destruct (l !! (row - 1)%nat); split; congruence.
Qed.

Lemma py_getitem_nat {A} (l : list A) (i : nat) (x : A) :
  py_getitem l (Z.of_nat i) = inr x <-> l !! i = Some x.
Proof.
  unfold py_getitem, raise, ret.
  assert (Hlt : (Z.of_nat i <? 0) = false) by (apply Z.ltb_ge; lia).
  cbv zeta. rewrite Hlt. cbv iota. rewrite Hlt.
  rewrite Nat2Z.id. simpl.
  destruct (Z.of_nat (length l) <=? Z.of_nat i) eqn:Hle.
  - apply Z.leb_le in Hle. split; [discriminate|].
    intros Hl. apply lookup_lt_Some in Hl. lia.
  - destruct (l !! i); split; congruence.
Qed.

Lemma py_slice_from_1 {A} (l : list A) (stop : Z) :
  py_slice l 1 stop
  = take (Z.to_nat (py_clamp (Z.of_nat (length l)) stop - 1)) (drop 1 l).
Proof.
  unfold py_slice. destruct l as [|x l].
  - simpl. by rewrite !take_nil.
  - assert (Hc : py_clamp (Z.of_nat (length (x :: l))) 1 = 1).
    { unfold py_clamp. simpl length. change (1 <? 0) with false.
      cbv iota. lia. }
    rewrite Hc. reflexivity.
Qed.

Lemma py_slice_from_1_sublist {A} (l : list A) (stop : Z) :
  py_slice l 1 stop `sublist_of` drop 1 l.
Proof. rewrite py_slice_from_1. apply sublist_take. Qed.

Lemma py_slice_from_1_length {A} (l : list A) (k : Z) :
  0 <= k ->
  length (py_slice l 1 (k + 1)) = Nat.min (Z.to_nat k) (length l - 1).
Proof.
  intros Hk. rewrite py_slice_from_1, length_take, length_drop.
  unfold py_clamp.
  replace (k + 1 <? 0) with false by (symmetry; apply Z.ltb_ge; lia).
  lia.
Qed.

(** ** The SVM retriever *)

Section SvmLemmas.

Import Svm.

Lemma first_index_Some (x : nat) (a : list nat) (i : nat) :
  first_index x a = Some i -> a !! i = Some x.
Proof.
  revert i. induction a as [|y a IH]; intros i; simpl; [discriminate|].
  destruct (Nat.eqb y x) eqn:Hy.
  - apply Nat.eqb_eq in Hy. intros [= <-]. simpl. congruence.
  - destruct (first_index x a) as [j|]; simpl; [|discriminate].
    intros [= <-]. simpl. by apply IH.
Qed.

Lemma first_index_elem (x : nat) (a : list nat) :
  x ∈ a -> exists i, first_index x a = Some i.
Proof.
  induction a as [|y a IH]; intros Hx; [by apply elem_of_nil in Hx|].
  simpl. destruct (Nat.eqb y x) eqn:Hy; [eauto|].
  apply elem_of_cons in Hx as [->|Hx].
  - rewrite Nat.eqb_refl in Hy. discriminate.
  - destruct (IH Hx) as [i ->]. simpl. eauto.
Qed.

(** The swap returns a rearrangement of its input that starts with row 0. *)
Lemma swap_zero_inv (l l' : list nat) :
  swap_zero l = inr l' -> l' ≡ₚ l /\ l' !! O = Some O.
Proof.
  unfold swap_zero, np_where_first. intros H. inv_bind H.
  destruct (first_index O l) as [i|] eqn:Hi; [|discriminate].
  injection Hbind as <-. apply first_index_Some in Hi.
  destruct (Nat.eqb i O) eqn:Hi0; simpl in H.
  - apply Nat.eqb_eq in Hi0. subst i. injection H as <-. done.
  - apply Nat.eqb_neq in Hi0. rewrite Hi in H.
    destruct (l !! O) as [b|] eqn:Hb; [|discriminate].
    injection H as <-. split.
    + by apply Permutation_insert_swap.
    + rewrite list_lookup_insert_ne by done.
      apply list_lookup_insert_eq. apply lookup_lt_Some in Hb. done.
Qed.

Lemma swap_zero_total (l : list nat) :
  O ∈ l -> exists l', swap_zero l = inr l'.
Proof.
  intros H0. destruct (first_index_elem _ _ H0) as [i Hi].
  unfold swap_zero, np_where_first. rewrite Hi. simpl.
  apply first_index_Some in Hi.
  destruct (Nat.eqb i O); simpl; [eauto|].
  rewrite Hi. destruct l as [|b l]; [done|]. simpl. eauto.
Qed.

(** After the swap, every position but the first holds an index row. *)
Lemma rows_after_zero (order : list nat) (n : nat) (r : nat) :
  order ≡ₚ seq 0 (S n) -> order !! O = Some O ->
  r ∈ drop 1 order -> (1 <= r <= n)%nat.
Proof.
  intros Hperm H0 Hr. destruct order as [|z rest]; [done|].
  simpl in H0. injection H0 as ->. simpl in Hr.
  assert (Hnd : NoDup (O :: rest)) by (rewrite Hperm; apply NoDup_seq).
  apply NoDup_cons in Hnd as [Hnotin _].
  assert (Hin : r ∈ seq 0 (S n)).
  { rewrite <- Hperm. by apply elem_of_cons; right. }
  apply elem_of_seq in Hin.
  assert (r <> O) by (intros ->; done). lia.
Qed.

(** What a successful run of the loop returns: one document per row of
    the slice that meets the threshold, in order, holding the text of the
    row before it and no metadata. *)
Lemma top_k_results_inv txts nz thr rows docs :
  top_k_results txts nz thr rows = inr docs ->
  Forall2
    (fun row d =>
       py_getitem txts (Z.of_nat row - 1) = inr (page_content d)
       /\ metadata d = ∅)
    (List.filter (meets_threshold thr nz) rows) docs.
Proof.
  revert docs. induction rows as [|row rows IH]; intros docs H; simpl in H.
  - injection H as <-. constructor.
  - inv_bind H. rename a into keep.
    assert (Hkeep : keep = meets_threshold thr nz row).
    { destruct thr as [t|]; simpl in *.
      - unfold np_getitem in Hbind. destruct (nz !! row); simpl in Hbind.
        + by injection Hbind as <-.
        + discriminate.
      - by injection Hbind as <-. }
    simpl. rewrite <- Hkeep. destruct keep.
    + inv_bind H. inv_bind H. injection H as <-.
      constructor; [by split|]. by apply IH.
    + by apply IH.
Qed.

(** When the loop returns at all. *)
Lemma top_k_results_returns txts nz thr rows :
  (exists docs, top_k_results txts nz thr rows = inr docs) <->
  Forall
    (fun row =>
       (thr <> None -> is_Some (nz !! row))
       /\ (meets_threshold thr nz row = true ->
           exists t, py_getitem txts (Z.of_nat row - 1) = inr t))
    rows.
Proof.
  induction rows as [|row rows IH]; simpl.
  - split; [constructor | by eexists].
  - split.
    + intros [docs H]. inv_bind H. rename a into keep.
      assert (Hrow : (thr <> None -> is_Some (nz !! row))
                     /\ keep = meets_threshold thr nz row).
      { destruct thr as [t|]; simpl in *.
        - unfold np_getitem in Hbind. destruct (nz !! row); simpl in Hbind.
          + injection Hbind as <-. split; [by eexists | done].
          + discriminate.
        - injection Hbind as <-. split; done. }
      destruct Hrow as [Hs Hkeep]. constructor.
      * split; [done|]. intros Hm. rewrite <- Hkeep in Hm. subst keep.
        rewrite Hm in H. inv_bind H. eauto.
      * apply IH. destruct keep; [|eauto].
        inv_bind H. inv_bind H. eauto.
    + intros HF. apply Forall_cons in HF as [[Hs Ht] HF].
      apply IH in HF as [docs Hdocs].
      assert (Hk : (match thr with
                    | Some t =>
                        let! s := np_getitem nz row in ret (Qle_bool t s)
                    | None => ret true
                    end) = inr (meets_threshold thr nz row)).
      { destruct thr as [t|]; simpl; [|done].
        destruct Hs as [s Hs]; [done|]. unfold np_getitem. by rewrite Hs. }
      rewrite Hk. simpl. destruct (meets_threshold thr nz row).
      * destruct Ht as [t Ht]; [done|]. rewrite Ht. simpl.
        rewrite Hdocs. simpl. eauto.
      * eauto.
Qed.

Lemma meets_threshold_None nz rows :
  List.filter (meets_threshold None nz) rows = rows.
Proof.
  induction rows as [|r rows IH]; simpl; [done|]. by rewrite IH.
Qed.

Lemma meets_threshold_mono (t1 t2 : Q) nz row :
  (t1 <= t2)%Q ->
  meets_threshold (Some t2) nz row = true ->
  meets_threshold (Some t1) nz row = true.
Proof.
  intros Ht. simpl. destruct (nz !! row) as [s|]; [|done].
  rewrite !Qle_bool_iff. intros Hs. by apply Qle_trans with t2.
Qed.

Lemma filter_length_mono {A} (p q : A -> bool) (l : list A) :
  (forall x, p x = true -> q x = true) ->
  (length (List.filter p l) <= length (List.filter q l))%nat.
Proof.
  intros Hpq. induction l as [|x l IH]; simpl; [done|].
  destruct (p x) eqn:Hp.
  - rewrite (Hpq x Hp). simpl. lia.
  - destruct (q x); simpl; lia.
Qed.

Lemma filter_length_le {A} (p : A -> bool) (l : list A) :
  (length (List.filter p l) <= length l)%nat.
Proof.
  induction l as [|x l IH]; simpl; [done|]. destruct (p x); simpl; lia.
Qed.

(** *** Minimum, maximum and the normalisation *)












End SvmLemmas.


Lemma filter_sublist {A} (p : A -> bool) (l : list A) :
  List.filter p l `sublist_of` l.
Proof.
  induction l as [|x l IH]; simpl; [constructor|].
  destruct (p x); by constructor.
Qed.

Lemma py_getitem_elem {A} (l : list A) (i : Z) (x : A) :
  py_getitem l i = inr x -> x ∈ l.
Proof.
  unfold py_getitem, raise, ret. cbv zeta.
  destruct (_ || _); [discriminate|].
  destruct (l !! _) eqn:Hl; [|discriminate].
  intros [= <-]. by eapply list_elem_of_lookup_2.
Qed.

Lemma normalize_length (similarities normalized : list Q) :
  Svm.normalize similarities = inr normalized ->
  length normalized = length similarities.
Proof.
  unfold Svm.normalize. intros H. inv_bind H. inv_bind H.
  injection H as <-. apply length_map.
Qed.

Lemma normalize_total (similarities : list Q) :
  similarities <> [] ->
  exists normalized, Svm.normalize similarities = inr normalized.
Proof.
  intros Hne. destruct similarities as [|a l]; [done|].
  unfold Svm.normalize. simpl. eauto.
Qed.

(** *** The reference instances meet the contracts assumed below *)

Lemma insert_ix_perm (v : list Q) (i : nat) (sorted : list nat) :
  Svm.insert_ix v i sorted ≡ₚ i :: sorted.
Proof.
  induction sorted as [|j rest IH]; simpl; [done|].
  destruct (Qle_bool _ _); [done|].
  rewrite IH. apply Permutation_swap.
Qed.

Lemma stable_argsort_perm (v : list Q) :
  Svm.stable_argsort v ≡ₚ seq 0 (length v).
Proof.
  unfold Svm.stable_argsort. generalize (seq 0 (length v)) as ixs.
  induction ixs as [|i ixs IH]; simpl; [done|].
  rewrite insert_ix_perm. by constructor.
Qed.

Lemma dot_decision_function_length x y s :
  Svm.dot_decision_function x y = inr s -> length s = length x.
Proof.
  unfold Svm.dot_decision_function.
  destruct (_ && _); [|discriminate].
  intros [= <-]. apply length_map.
Qed.

Lemma dot_decision_function_single_class x y (c : Q) :
  Forall (eq c) y -> Svm.dot_decision_function x y = inl ValueError.
Proof.
  intros Hy. unfold Svm.dot_decision_function.
  destruct (existsb (Qeq_bool 1) y) eqn:H1; [|done].
  destruct (existsb (Qeq_bool 0) y) eqn:H0; [|done].
  apply existsb_exists in H1 as (a & Ha & H1).
  apply existsb_exists in H0 as (b & Hb & H0).
  rewrite Forall_forall in Hy.
  apply list_elem_of_In in Ha, Hb.
  rewrite <- (Hy a Ha) in H1. rewrite <- (Hy b Hb) in H0.
  apply Qeq_bool_iff in H1, H0.
  assert (Habs : (1 == 0)%Q) by (by rewrite H1, H0).
  discriminate Habs.
Qed.

Lemma linear_decision_function_length w x y s :
  Svm.linear_decision_function w x y = inr s -> length s = length x.
Proof.
  unfold Svm.linear_decision_function.
  destruct (_ && _); [|discriminate].
  intros [= <-]. apply length_map.
Qed.

Lemma linear_decision_function_single_class w x y (c : Q) :
  Forall (eq c) y -> Svm.linear_decision_function w x y = inl ValueError.
Proof.
  intros Hy. unfold Svm.linear_decision_function.
  destruct (existsb (Qeq_bool 1) y) eqn:H1; [|done].
  destruct (existsb (Qeq_bool 0) y) eqn:H0; [|done].
  apply existsb_exists in H1 as (a & Ha & H1).
  apply existsb_exists in H0 as (b & Hb & H0).
  rewrite Forall_forall in Hy.
  apply list_elem_of_In in Ha, Hb.
  rewrite <- (Hy a Ha) in H1. rewrite <- (Hy b Hb) in H0.
  apply Qeq_bool_iff in H1, H0.
  assert (Habs : (1 == 0)%Q) by (by rewrite H1, H0).
  discriminate Habs.
Qed.

Section SvmRetrieval.

Import Svm.

Variable sklearn_installed : bool.
Variable decision_function : list Vector -> list Q -> result (list Q).
Variable argsort : list Q -> list nat.

(** [np.argsort] returns the positions of its argument, rearranged. *)
Hypothesis argsort_perm : forall v, argsort v ≡ₚ seq 0 (length v).

(** [decision_function] returns one value per row. *)
Hypothesis decision_function_length :
  forall x y s, decision_function x y = inr s -> length s = length x.

(** The solver refuses a training set whose labels are all of one class. *)
Hypothesis fit_single_class :
  forall x y (c : Q), Forall (eq c) y -> decision_function x y = inl ValueError.

Abbreviation run :=
  (_get_relevant_documents sklearn_installed decision_function argsort).

(** The steps a successful run went through. *)
Lemma run_inr (self : SVMRetriever) (query : string) (docs : list Document) :
  run self query = inr docs <->
  exists d rows similarities order normalized,
    sklearn_installed = true
    /\ index self = Arr2 d rows
    /\ d = length (embed_query (embeddings self) query)
    /\ decision_function (embed_query (embeddings self) query :: rows)
         (labels (S (length rows))) = inr similarities
    /\ swap_zero (argsort (map Qopp similarities)) = inr order
    /\ normalize similarities = inr normalized
    /\ top_k_results (texts self) normalized (relevancy_threshold self)
         (py_slice order 1 (k self + 1)) = inr docs.
Proof.
  unfold _get_relevant_documents. split.
  - destruct sklearn_installed; simpl; [|discriminate].
    intros H. inv_bind H. rename a into x.
    unfold np_concatenate_row in Hbind.
    destruct (index self) as [v|d rows]; [discriminate|].
    destruct (Nat.eqb d _) eqn:Hd; [|discriminate].
    apply Nat.eqb_eq in Hd. injection Hbind as <-.
    inv_bind H. inv_bind H. inv_bind H.
    exists d, rows, a, a0, a1. simpl in Hbind0. done.
  - intros (d & rows & sims & order & nz
            & -> & Hix & Hd & Hdf & Hsw & Hnz & Hk).
    simpl. rewrite Hix. unfold np_concatenate_row.
    rewrite Hd, Nat.eqb_refl. simpl in Hdf |- *. rewrite Hdf. simpl.
    rewrite Hsw. simpl. rewrite Hnz. simpl. done.
Qed.

(** In a successful run the corrected order is a rearrangement of the row
    numbers [0 .. N] that starts with the query row. *)
Lemma corrected_order_spec (rows x : list Vector) (y similarities : list Q)
    (order : list nat) :
  length x = S (length rows) ->
  decision_function x y = inr similarities ->
  swap_zero (argsort (map Qopp similarities)) = inr order ->
  order ≡ₚ seq 0 (S (length rows)) /\ order !! O = Some O.
Proof.
  intros Hx Hdf Hsw. apply swap_zero_inv in Hsw as [Hperm H0].
  split; [|done]. rewrite Hperm, argsort_perm, length_map.
  by rewrite (decision_function_length _ _ _ Hdf), Hx.
Qed.

(** The rows read by the loop of a run that reached it. *)
Lemma slice_rows_in_index (rows x : list Vector) (y similarities : list Q)
    (order : list nat) (stop : Z) :
  length x = S (length rows) ->
  decision_function x y = inr similarities ->
  swap_zero (argsort (map Qopp similarities)) = inr order ->
  Forall (fun row => (1 <= row <= length rows)%nat) (py_slice order 1 stop).
Proof.
  intros Hx Hdf Hsw.
  destruct (corrected_order_spec _ _ _ _ _ Hx Hdf Hsw) as [Hperm H0].
  apply Forall_forall. intros row Hrow.
  eapply rows_after_zero; [exact Hperm | exact H0 |].
  eapply elem_of_sublist; [exact Hrow | apply py_slice_from_1_sublist].
Qed.

(** C1: after the row-0 swap, every document a run returns is the text of
    an index row: the rows read are among positions [1 .. k] of the
    corrected order, that order starts with the injected query row 0 and
    holds every row number once, so each row read lies in [1 .. N] and is
    mapped to [texts[row - 1]]. *)
Theorem query_row_never_returned (self : SVMRetriever) (query : string)
    (docs : list Document) :
  run self query = inr docs ->
  exists (similarities : list Q) (order rows : list nat),
    swap_zero (argsort (map Qopp similarities)) = inr order
    /\ order ≡ₚ seq 0 (S (nrows (index self)))
    /\ order !! O = Some O
    /\ rows `sublist_of` py_slice order 1 (k self + 1)
    /\ Forall (fun row => (1 <= row <= nrows (index self))%nat) rows
    /\ Forall2
         (fun row d => texts self !! (row - 1)%nat = Some (page_content d))
         rows docs.
Proof.
  intros Hrun. apply run_inr in Hrun
    as (d & ixrows & sims & order & nz & _ & Hix & _ & Hdf & Hsw & _ & Hk).
  rewrite Hix. simpl nrows.
  assert (Hx : length (embed_query (embeddings self) query :: ixrows)
               = S (length ixrows)) by done.
  destruct (corrected_order_spec _ _ _ _ _ Hx Hdf Hsw) as [Hperm H0].
  pose proof (slice_rows_in_index _ _ _ _ _ (k self + 1) Hx Hdf Hsw) as Hin.
  set (slice := py_slice order 1 (k self + 1)) in *.
  set (rows := List.filter
                 (meets_threshold (relevancy_threshold self) nz) slice).
  assert (Hsub : rows `sublist_of` slice) by apply filter_sublist.
  assert (Hrows : Forall (fun row => (1 <= row <= length ixrows)%nat) rows).
  { apply Forall_forall. intros row Hrow.
    rewrite Forall_forall in Hin. apply Hin.
    eapply elem_of_sublist; [exact Hrow | exact Hsub]. }
  exists sims, order, rows. repeat split; try done.
  apply top_k_results_inv in Hk. fold slice in Hk. fold rows in Hk.
  clear -Hk Hrows. induction Hk as [|row d rows' docs' [Hd _] _ IH].
  - constructor.
  - apply Forall_cons in Hrows as [Hrow Hrows]. constructor; [|by apply IH].
    apply py_getitem_pred in Hd; [done | lia].
Qed.

(** A run returns as soon as the solver does and every index row has a
    text. *)
Lemma run_returns (self : SVMRetriever) (query : string) (d : nat)
    (rows : list Vector) (similarities : list Q) :
  sklearn_installed = true ->
  index self = Arr2 d rows ->
  d = length (embed_query (embeddings self) query) ->
  decision_function (embed_query (embeddings self) query :: rows)
    (labels (S (length rows))) = inr similarities ->
  (length rows <= length (texts self))%nat ->
  exists docs, run self query = inr docs.
Proof.
  intros Hsk Hix Hd Hdf Htexts.
  assert (Hx : length (embed_query (embeddings self) query :: rows)
               = S (length rows)) by done.
  pose proof (decision_function_length _ _ _ Hdf) as Hlen. rewrite Hx in Hlen.
  destruct (swap_zero_total (argsort (map Qopp similarities))) as [order Hsw].
  { rewrite argsort_perm, length_map, Hlen. apply elem_of_seq. lia. }
  destruct (normalize_total similarities) as [nz Hnz].
  { intros ->. discriminate Hlen. }
  pose proof (slice_rows_in_index _ _ _ _ _ (k self + 1) Hx Hdf Hsw) as Hin.
  destruct (proj2 (top_k_results_returns (texts self) nz
                     (relevancy_threshold self)
                     (py_slice order 1 (k self + 1)))) as [docs Hdocs].
  { eapply Forall_impl; [exact Hin|]. intros row Hrow. simpl in Hrow. split.
    - intros _. apply lookup_lt_is_Some.
      rewrite (normalize_length _ _ Hnz), Hlen. lia.
    - intros _.
      destruct (lookup_lt_is_Some_2 (texts self) (row - 1)%nat) as [t Ht];
        [lia|].
      exists t. apply py_getitem_pred; [lia | done]. }
  exists docs. apply run_inr.
  exists d, rows, similarities, order, nz. done.
Qed.

(** C2: for [k >= 0], a returned list has at most [k] elements and at most
    as many as the index has rows; it has exactly [k] when no threshold is
    set and the index has at least [k] rows; and whenever the solver
    returns and every index row has a text, the run returns a list (a short
    one when fewer than [k] rows qualify), not an exception. *)
Theorem result_cardinality (self : SVMRetriever) (query : string) :
  0 <= k self ->
  (forall docs, run self query = inr docs ->
     (length docs <= Z.to_nat (k self))%nat
     /\ (length docs <= nrows (index self))%nat
     /\ (relevancy_threshold self = None ->
         (Z.to_nat (k self) <= nrows (index self))%nat ->
         length docs = Z.to_nat (k self)))
  /\ (forall d rows similarities,
        sklearn_installed = true ->
        index self = Arr2 d rows ->
        d = length (embed_query (embeddings self) query) ->
        decision_function (embed_query (embeddings self) query :: rows)
          (labels (S (length rows))) = inr similarities ->
        (length rows <= length (texts self))%nat ->
        exists docs, run self query = inr docs
          /\ (length docs <= Nat.min (Z.to_nat (k self)) (length rows))%nat).
Proof.
  intros Hk.
  assert (Hbounds : forall docs, run self query = inr docs ->
     (length docs <= Z.to_nat (k self))%nat
     /\ (length docs <= nrows (index self))%nat
     /\ (relevancy_threshold self = None ->
         (Z.to_nat (k self) <= nrows (index self))%nat ->
         length docs = Z.to_nat (k self))).
  { intros docs Hrun. apply run_inr in Hrun
      as (d & rows & sims & order & nz & _ & Hix & _ & Hdf & Hsw & _ & Hres).
    rewrite Hix. simpl nrows.
    assert (Hx : length (embed_query (embeddings self) query :: rows)
                 = S (length rows)) by done.
    destruct (corrected_order_spec _ _ _ _ _ Hx Hdf Hsw) as [Hperm _].
    apply Permutation_length in Hperm. rewrite length_seq in Hperm.
    apply top_k_results_inv, Forall2_length in Hres.
    pose proof (py_slice_from_1_length order (k self) Hk) as Hslice.
    rewrite Hperm in Hslice.
    pose proof (filter_length_le
                  (meets_threshold (relevancy_threshold self) nz)
                  (py_slice order 1 (k self + 1))) as Hle.
    repeat split; try lia.
    intros Hthr Hkn. rewrite Hthr, meets_threshold_None in Hres. lia. }
  split; [exact Hbounds|].
  intros d rows sims Hsk Hix Hd Hdf Htexts.
  destruct (run_returns self query d rows sims Hsk Hix Hd Hdf Htexts)
    as [docs Hdocs].
  exists docs. split; [done|].
  destruct (Hbounds docs Hdocs) as (H1 & H2 & _).
  rewrite Hix in H2. simpl in H2. lia.
Qed.


(** C5, as the code has it: on an index with zero rows the run raises no
    exception of its own; with scikit-learn present it ends in the
    [ValueError] that numpy's concatenation or the solver's fit raises, and
    never returns a list. *)
Theorem empty_index_raises_ValueError (self : SVMRetriever) (query : string) :
  sklearn_installed = true ->
  nrows (index self) = O ->
  run self query = inl ValueError.
Proof.
  intros -> Hrows. unfold _get_relevant_documents. simpl.
  destruct (index self) as [v|d rows]; simpl; [done|].
  simpl in Hrows. apply length_zero_iff_nil in Hrows. subst rows.
  destruct (Nat.eqb d _); simpl; [|done].
  rewrite (fit_single_class _ [1%Q] 1%Q); [done|].
  by constructor.
Qed.

(** C9: a retriever built by [from_documents] keeps the page contents of
    the documents and nothing of their metadata (any other documents with
    the same contents build the same retriever), and every document it
    returns has one of those contents and the empty metadata. *)
Theorem from_documents_discards_metadata
    (documents documents' : list Document) (e : Embeddings) (k0 : Z)
    (thr : option Q) (self : SVMRetriever) (query : string)
    (docs : list Document) :
  from_documents documents e k0 thr = inr self ->
  run self query = inr docs ->
  texts self = map page_content documents
  /\ (map page_content documents' = map page_content documents ->
      from_documents documents' e k0 thr = inr self)
  /\ Forall
       (fun d => metadata d = ∅
                 /\ page_content d ∈ map page_content documents)
       docs.
Proof.
  intros Hfrom Hrun.
  assert (Hshape : forall ds, ds <> [] ->
            from_documents ds e k0 thr
            = from_texts (map page_content ds) e k0 thr).
  { intros [|d0 ds] Hne; [done|]. reflexivity. }
  assert (Hne : documents <> []).
  { intros ->. discriminate Hfrom. }
  rewrite (Hshape _ Hne) in Hfrom.
  assert (Htexts : texts self = map page_content documents).
  { unfold from_texts in Hfrom. inv_bind Hfrom. by injection Hfrom as <-. }
  split; [done|]. split.
  - intros Hmap. rewrite Hshape, Hmap; [done|].
    intros ->. destruct documents; [done | discriminate Hmap].
  - apply run_inr in Hrun
      as (d & rows & sims & order & nz & _ & _ & _ & _ & _ & _ & Hres).
    apply top_k_results_inv in Hres. rewrite <- Htexts.
    induction Hres as [|row doc rows' docs' [Hget Hmeta] _ IH];
      constructor; [|done].
    split; [done|]. by eapply py_getitem_elem.
Qed.

End SvmRetrieval.

Section SvmTwoFits.

Import Svm.

Variable sklearn_installed : bool.

(** The classifiers of two calls: every call of the retriever builds and
    fits a [LinearSVC] of its own. *)
Variable decision_function1 : list Vector -> list Q -> result (list Q).
Variable decision_function2 : list Vector -> list Q -> result (list Q).

Variable argsort : list Q -> list nat.

(** C3, as the code has it: for the same query and index, when the fit of
    the second call yields the decision values of the fit of the first,
    raising the threshold from [t1] to [t2] keeps a returning call
    returning and does not lengthen its result. *)
Theorem threshold_monotone_for_equal_fits (self : SVMRetriever)
    (query : string) (d : nat) (rows : list Vector) (t1 t2 : Q)
    (docs1 : list Document) :
  (t1 <= t2)%Q ->
  index self = Arr2 d rows ->
  decision_function2 (embed_query (embeddings self) query :: rows)
    (labels (S (length rows)))
  = decision_function1 (embed_query (embeddings self) query :: rows)
      (labels (S (length rows))) ->
  _get_relevant_documents sklearn_installed decision_function1 argsort
    (with_relevancy_threshold (Some t1) self) query = inr docs1 ->
  exists docs2,
    _get_relevant_documents sklearn_installed decision_function2 argsort
      (with_relevancy_threshold (Some t2) self) query = inr docs2
    /\ (length docs2 <= length docs1)%nat.
Proof.
  intros Ht Hindex Hfits Hrun. apply run_inr in Hrun
    as (d' & rows' & sims & order & nz
        & Hsk & Hix & Hd & Hdf & Hsw & Hnz & Hres).
  simpl in *. rewrite Hindex in Hix. injection Hix as <- <-.
  assert (Hret : exists docs2,
             top_k_results (texts self) nz (Some t2)
               (py_slice order 1 (k self + 1)) = inr docs2).
  { apply top_k_results_returns.
    assert (H1 : exists docs, top_k_results (texts self) nz (Some t1)
                   (py_slice order 1 (k self + 1)) = inr docs) by eauto.
    apply top_k_results_returns in H1.
    eapply Forall_impl; [exact H1|]. intros row [Hs Hget]. split.
    - intros _. by apply Hs.
    - intros Hm. apply Hget. by eapply meets_threshold_mono. }
  destruct Hret as [docs2 Hres2]. exists docs2. split.
  - apply run_inr. exists d, rows, sims, order, nz.
    simpl. rewrite Hfits. done.
  - apply top_k_results_inv, Forall2_length in Hres, Hres2.
    rewrite <- Hres, <- Hres2. apply filter_length_mono.
    intros row. by apply meets_threshold_mono.
Qed.

End SvmTwoFits.

(** ** The Deep Lake search *)

Lemma gather_inv {A} (xs : list A) (indices : list nat) (ys : list A) :
  DeepLake.gather xs indices = inr ys ->
  Forall2 (fun i y => xs !! i = Some y) indices ys.
Proof.
  revert ys. induction indices as [|i rest IH]; intros ys H; simpl in H.
  - injection H as <-. constructor.
  - inv_bind H. inv_bind H. injection H as <-.
    constructor; [by apply py_getitem_nat | by apply IH].
Qed.

Lemma gather_total {A} (xs : list A) (indices : list nat) :
  Forall (fun i => (i < length xs)%nat) indices ->
  exists ys, DeepLake.gather xs indices = inr ys.
Proof.
  induction 1 as [|i rest Hi _ [ys IH]]; simpl; [by eexists|].
  destruct (lookup_lt_is_Some_2 xs i Hi) as [x Hx].
  apply py_getitem_nat in Hx. rewrite Hx. simpl. rewrite IH. simpl. eauto.
Qed.



Lemma gathered_pairs (scores : list Q) (texts : list string)
    (metadatas : list (gmap string string)) (indices : list nat)
    (ss : list Q) (ts : list string) (ms : list (gmap string string)) :
  Forall2 (fun i y => scores !! i = Some y) indices ss ->
  Forall2 (fun i y => texts !! i = Some y) indices ts ->
  Forall2 (fun i y => metadatas !! i = Some y) indices ms ->
  Forall2
    (fun i (p : Document * Q) =>
       scores !! i = Some (snd p)
       /\ texts !! i = Some (page_content (fst p))
       /\ metadatas !! i = Some (metadata (fst p)))
    indices (zip (zip_with mkDocument ts ms) ss).
Proof.
  intros Hs. revert ts ms.
  induction Hs as [|i s indices ss Hi _ IH]; intros ts ms Ht Hm.
  - apply Forall2_nil_inv_l in Ht as ->. constructor.
  - apply Forall2_cons_inv_l in Ht as (t & ts' & Hti & Ht & ->).
    apply Forall2_cons_inv_l in Hm as (m & ms' & Hmi & Hm & ->).
    simpl. constructor; [done | by apply IH].
Qed.

Section DeepLakeSearch.

Import DeepLake.

Variable vectorstore_search : search_request -> result search_result.
Variable maximal_marginal_relevance :
  option ndarray -> list Vector -> Z -> Q -> result (list nat).

(** The helper selects at most the requested number of candidates. *)
Hypothesis mmr_at_most_k :
  forall e candidates (k : Z) lam indices,
    0 <= k ->
    maximal_marginal_relevance e candidates k lam = inr indices ->
    Z.of_nat (length indices) <= k.

Abbreviation search := (_search vectorstore_search maximal_marginal_relevance).
Abbreviation select :=
  (search_and_select vectorstore_search maximal_marginal_relevance).

(** What lines 355-393 do, by case. *)
Lemma search_and_select_cases (self : DeepLake) (a : search_args)
    (emb : option ndarray) :
  let req := embedding_request a emb in
  match vectorstore_search req with
  | inl err => select self a emb = ([SearchCall req], inl err)
  | inr res =>
      let assemble scores texts metadatas :=
        let docs := zip_with mkDocument texts metadatas in
        if return_score a then ScoredDocs (zip docs scores) else Docs docs in
      if use_maximal_marginal_relevance a then
        let target := Z.min (k a) (Z.of_nat (length (res_text res))) in
        let call :=
          MmrCall emb (res_embedding res) target (get_lambda_mult (kw a)) in
        select self a emb =
          ([SearchCall req; call],
           let! indices :=
             maximal_marginal_relevance emb (res_embedding res) target
               (get_lambda_mult (kw a)) in
           let! scores := gather (res_score res) indices in
           let! texts := gather (res_text res) indices in
           let! metadatas := gather (res_metadata res) indices in
           ret (assemble scores texts metadatas))
      else
        select self a emb =
          ([SearchCall req],
           inr (assemble (res_score res) (res_text res) (res_metadata res)))
  end.
Proof.
  intros req. unfold search_and_select, call_search, call_mmr, lift, emit.
  fold req. simpl.
  destruct (vectorstore_search req) as [err|res]; simpl; [done|].
  destruct (use_maximal_marginal_relevance a); simpl.
  - destruct (maximal_marginal_relevance _ _ _ _) as [err|indices]; simpl;
      [done|].
    destruct (gather (res_score res) indices) as [err|scores]; simpl; [done|].
    destruct (gather (res_text res) indices) as [err|texts]; simpl; [done|].
    destruct (gather (res_metadata res) indices) as [err|metadatas]; simpl;
      [done|].
    by destruct (return_score a).
  - by destruct (return_score a).
Qed.

Lemma embed_calls_cons (ev : event) (t : list event) :
  embed_calls (ev :: t)
  = match is_embed ev with
    | Some c => c :: embed_calls t
    | None => embed_calls t
    end.
Proof. reflexivity. Qed.

Lemma search_requests_cons (ev : event) (t : list event) :
  search_requests (ev :: t)
  = match is_search ev with
    | Some r => r :: search_requests t
    | None => search_requests t
    end.
Proof. reflexivity. Qed.

Lemma mbind_mret {A B} (x : A) (f : A -> M B) : mbind (mret x) f = f x.
Proof. unfold mbind, mret. by destruct (f x). Qed.

(** The calls of lines 355-393: one store request, then at most the MMR
    call. *)
Lemma search_and_select_trace (self : DeepLake) (a : search_args)
    (emb : option ndarray) :
  exists tail,
    fst (select self a emb) = SearchCall (embedding_request a emb) :: tail
    /\ embed_calls tail = [] /\ search_requests tail = [].
Proof.
  pose proof (search_and_select_cases self a emb) as H. simpl in H.
  destruct (vectorstore_search _) as [err|res].
  - rewrite H. by exists [].
  - destruct (use_maximal_marginal_relevance a); rewrite H; eauto.
Qed.

(** [_search] without a TQL query, by the way the embedding is obtained. *)
Lemma search_cases (self : DeepLake) (a : search_args) :
  truthy (tql_query (kw a)) = None ->
  search self a =
    match embedding_arg a with
    | Some e =>
        match to_query_array e with
        | inl err => ([], inl err)
        | inr arr => select self a (Some arr)
        end
    | None =>
        match resolve_embedding_function self a with
        | None => ([], inl ValueError)
        | Some (src, f) =>
            match truthy (query a) with
            | Some q =>
                match to_query_array (f q) with
                | inl err => ([EmbedCall src q], inl err)
                | inr arr =>
                    (EmbedCall src q :: fst (select self a (Some arr)),
                     snd (select self a (Some arr)))
                end
            | None => select self a None
            end
        end
    end.
Proof.
  intros Htql. unfold _search. rewrite Htql.
  unfold resolve_embedding, convert_embedding, call_embedder, emit, lift.
  destruct (embedding_arg a) as [e|].
  - rewrite mbind_mret. destruct (to_query_array e) as [err|arr]; [done|].
    simpl. by destruct (search_and_select _ _ _ _ _).
  - destruct (resolve_embedding_function self a) as [[src f]|]; [|done].
    destruct (truthy (query a)) as [q|].
    + simpl. destruct (to_query_array (f q)) as [err|arr]; [done|].
      simpl. by destruct (search_and_select _ _ _ _ _).
    + by rewrite !mbind_mret.
Qed.

(** A returning [_search] went through lines 355-393 with some embedding,
    after at most one embedding call. *)
Lemma search_inr (self : DeepLake) (a : search_args) (t : list event)
    (out : search_output) :
  truthy (tql_query (kw a)) = None ->
  search self a = (t, inr out) ->
  exists emb t0 t1,
    select self a emb = (t1, inr out) /\ t = t0 ++ t1
    /\ search_requests t0 = [] /\ mmr_targets t0 = [].
Proof.
  intros Htql Hrun. rewrite (search_cases self a Htql) in Hrun.
  destruct (embedding_arg a) as [e|].
  - destruct (to_query_array e) as [err|arr]; [discriminate|].
    by exists (Some arr), [], t.
  - destruct (resolve_embedding_function self a) as [[src f]|];
      [|discriminate].
    destruct (truthy (query a)) as [q|].
    + destruct (to_query_array (f q)) as [err|arr]; [discriminate|].
      destruct (select self a (Some arr)) as [t1 r] eqn:Hsel.
      simpl in Hrun. injection Hrun as <- ->.
      by exists (Some arr), [EmbedCall src q], t1.
    + by exists None, [], t.
Qed.

(** What a returning pass through lines 355-393 did. *)
Lemma search_and_select_inr (self : DeepLake) (a : search_args)
    (emb : option ndarray) (t : list event) (out : search_output) :
  select self a emb = (t, inr out) ->
  exists res,
    vectorstore_search (embedding_request a emb) = inr res
    /\ if use_maximal_marginal_relevance a then
         exists indices scores texts metadatas,
           let target := Z.min (k a) (Z.of_nat (length (res_text res))) in
           maximal_marginal_relevance emb (res_embedding res) target
             (get_lambda_mult (kw a)) = inr indices
           /\ gather (res_score res) indices = inr scores
           /\ gather (res_text res) indices = inr texts
           /\ gather (res_metadata res) indices = inr metadatas
           /\ t = [SearchCall (embedding_request a emb);
                   MmrCall emb (res_embedding res) target
                     (get_lambda_mult (kw a))]
           /\ out = (if return_score a
                     then ScoredDocs
                            (zip (zip_with mkDocument texts metadatas) scores)
                     else Docs (zip_with mkDocument texts metadatas))
       else
         t = [SearchCall (embedding_request a emb)]
         /\ out = (if return_score a
                   then ScoredDocs
                          (zip (zip_with mkDocument (res_text res)
                                  (res_metadata res)) (res_score res))
                   else Docs (zip_with mkDocument (res_text res)
                                (res_metadata res))).
Proof.
  intros Hsel. pose proof (search_and_select_cases self a emb) as H.
  simpl in H. destruct (vectorstore_search _) as [err|res].
  - rewrite H in Hsel. discriminate.
  - exists res. split; [done|].
    destruct (use_maximal_marginal_relevance a); rewrite H in Hsel.
    + injection Hsel as <- Hout.
      inv_bind Hout. inv_bind Hout. inv_bind Hout. inv_bind Hout.
      injection Hout as <-. exists a0, a1, a2, a3. done.
    + injection Hsel as <- <-. done.
Qed.

(** C6, as the code has it (no TQL query given): an explicit embedding is
    converted and sent to the store without any embedding call; otherwise
    the explicit embedding function, and failing that the configured one,
    is the one resolved, and it is applied to the query exactly when the
    query is non-empty (for [None] or [""] nothing is called and the store
    is queried with no embedding); with no embedding and no function the
    run ends in [ValueError] before any call. *)
Theorem embedding_resolution_precedence (self : DeepLake) (a : search_args) :
  truthy (tql_query (kw a)) = None ->
  let t := fst (search self a) in
  let resolved src f :=
    match truthy (query a) with
    | Some q =>
        embed_calls t = [(src, q)]
        /\ match to_query_array (f q) with
           | inr arr => search_requests t = [embedding_request a (Some arr)]
           | inl err => search self a = ([EmbedCall src q], inl err)
           end
    | None =>
        embed_calls t = [] /\ search_requests t = [embedding_request a None]
    end in
  match embedding_arg a with
  | Some e =>
      embed_calls t = []
      /\ match to_query_array e with
         | inr arr => search_requests t = [embedding_request a (Some arr)]
         | inl err => search self a = ([], inl err)
         end
  | None =>
      match embedding_function a, _embedding_function self with
      | Some f, _ => resolved Explicit (as_callable f)
      | None, Some e => resolved Default (as_callable (AsEmbeddings e))
      | None, None => search self a = ([], inl ValueError)
      end
  end.
Proof.
  intros Htql. cbv zeta. rewrite (search_cases self a Htql).
  assert (Hsel : forall emb,
            embed_calls (fst (select self a emb)) = []
            /\ search_requests (fst (select self a emb))
               = [embedding_request a emb]).
  { intros emb.
    destruct (search_and_select_trace self a emb) as (tl & -> & He & Hs).
    rewrite embed_calls_cons, search_requests_cons. simpl.
    by rewrite He, Hs. }
  destruct (embedding_arg a) as [e|].
  - destruct (to_query_array e) as [err|arr]; [done|]. apply Hsel.
  - unfold resolve_embedding_function.
    destruct (embedding_function a) as [f|];
      [|destruct (_embedding_function self) as [e|]; [|done]];
      (destruct (truthy (query a)) as [q|]; [|apply Hsel]);
      (destruct (to_query_array _) as [err|arr]; [done|]);
      destruct (Hsel (Some arr)) as [He Hs]; cbn [fst];
      rewrite embed_calls_cons, search_requests_cons; simpl;
      by rewrite He, Hs.
Qed.


(** C8: with MMR and scores requested, the output pairs follow the indices
    the selection returned, and the score of each pair is the store's own
    score at that index (with the store's text and metadata at the same
    index); nothing else is attached. *)
Theorem mmr_scores_are_store_scores (self : DeepLake) (a : search_args)
    (t : list event) (out : search_output) :
  truthy (tql_query (kw a)) = None ->
  use_maximal_marginal_relevance a = true ->
  return_score a = true ->
  search self a = (t, inr out) ->
  exists emb res indices pairs,
    vectorstore_search (embedding_request a emb) = inr res
    /\ maximal_marginal_relevance emb (res_embedding res)
         (Z.min (k a) (Z.of_nat (length (res_text res))))
         (get_lambda_mult (kw a)) = inr indices
    /\ out = ScoredDocs pairs
    /\ Forall2
         (fun i (p : Document * Q) =>
            res_score res !! i = Some (snd p)
            /\ res_text res !! i = Some (page_content (fst p))
            /\ res_metadata res !! i = Some (metadata (fst p)))
         indices pairs.
Proof.
  intros Htql Hmmr Hscore Hrun.
  destruct (search_inr self a t out Htql Hrun)
    as (emb & t0 & t1 & Hsel & _ & _ & _).
  destruct (search_and_select_inr self a emb t1 out Hsel) as (res & Hres & H).
  rewrite Hmmr, Hscore in H.
  destruct H as (indices & scores & texts & metadatas
                 & Hcall & Hsc & Htx & Hmd & _ & ->).
  exists emb, res, indices, (zip (zip_with mkDocument texts metadatas) scores).
  repeat split; try done.
  apply gathered_pairs; by apply gather_inv.
Qed.

(** C10: with no TQL query, no embedding, a [None] or empty query and some
    embedding function resolvable, [_search] raises nothing of its own: no
    embedding function is called, the run is lines 355-393 with the
    embedding still [None], the store receives that request, and when the
    store answers and MMR is off the run returns. *)
Theorem none_query_reaches_store (self : DeepLake) (a : search_args) :
  truthy (tql_query (kw a)) = None ->
  embedding_arg a = None ->
  truthy (query a) = None ->
  embedding_function a <> None \/ _embedding_function self <> None ->
  search self a = select self a None
  /\ embed_calls (fst (search self a)) = []
  /\ search_requests (fst (search self a)) = [embedding_request a None]
  /\ (use_maximal_marginal_relevance a = false ->
      forall res, vectorstore_search (embedding_request a None) = inr res ->
      exists out, snd (search self a) = inr out).
Proof.
  intros Htql Hemb Hq Hfn.
  assert (Heq : search self a = select self a None).
  { rewrite (search_cases self a Htql), Hemb, Hq.
    unfold resolve_embedding_function.
    destruct (embedding_function a) as [f|]; [done|].
    destruct (_embedding_function self) as [e|]; [done|].
    by destruct Hfn. }
  rewrite Heq. split; [done|].
  destruct (search_and_select_trace self a None) as (tl & Ht & He & Hs).
  rewrite Ht, embed_calls_cons, search_requests_cons. simpl.
  rewrite He, Hs. repeat split; try done.
  intros Hmmr res Hres.
  pose proof (search_and_select_cases self a None) as H. simpl in H.
  rewrite Hres, Hmmr in H. rewrite H. simpl. eauto.
Qed.

End DeepLakeSearch.

(** ** The properties on the concrete inputs *)

Section Instances.

Import Svm DeepLake Examples.

(** The uncorrected order of the toy run has the query row in second
    place, behind the row of "cat"; the swap moves it to the front. *)
Example toy_order_before_and_after_swap :
  stable_argsort (map Qopp [1; 2; 0; 1 # 2]%Q) = [1; 0; 3; 2]%nat
  /\ swap_zero [1; 0; 3; 2]%nat = inr [0; 1; 3; 2]%nat.
Proof. split; reflexivity. Qed.

(** The selector modelled from the spec on the spec's scenario: candidate 0
    first, then candidate 2 rather than the near-duplicate 1. *)
Example mmr_scenario :
  Mmr.select Mmr.cosine_similarity [1; 0]%Q
    [[1; 0]; [99 # 100; 1 # 100]; [0; 1]]%Q (3 # 10)%Q 2 = [0; 2]%nat.
Proof. vm_compute. reflexivity. Qed.

(** C1 on the toy retriever: the query "kitten" returns "cat" and "car",
    rows 1 and 3 of the corrected order [[0; 1; 3; 2]]. *)
Lemma query_row_never_returned_witness :
  toy_run toy_retriever "kitten"
  = inr [Document_of_text "cat"; Document_of_text "car"]
  /\ exists (similarities : list Q) (order rows : list nat),
       swap_zero (stable_argsort (map Qopp similarities)) = inr order
       /\ order ≡ₚ seq 0 4
       /\ order !! O = Some O
       /\ rows `sublist_of` py_slice order 1 3
       /\ Forall (fun row => (1 <= row <= 3)%nat) rows
       /\ Forall2
            (fun row d =>
               ["cat"; "dog"; "car"] !! (row - 1)%nat = Some (page_content d))
            rows [Document_of_text "cat"; Document_of_text "car"].
Proof.
  split; [reflexivity|].
  apply (query_row_never_returned true dot_decision_function stable_argsort
           stable_argsort_perm dot_decision_function_length
           toy_retriever "kitten").
  reflexivity.
Defined.

(** C2 on the toy retriever: [k = 2], three index rows, no threshold. *)
Lemma result_cardinality_witness :
  0 <= Svm.k toy_retriever
  /\ exists docs,
       toy_run toy_retriever "kitten" = inr docs /\ length docs = 2%nat.
Proof.
  assert (Hk : 0 <= Svm.k toy_retriever) by (simpl; lia).
  split; [exact Hk|].
  destruct (result_cardinality true dot_decision_function stable_argsort
              stable_argsort_perm dot_decision_function_length
              toy_retriever "kitten" Hk) as [Hbounds Hreturns].
  edestruct Hreturns as (docs & Hdocs & _);
    [reflexivity | reflexivity | reflexivity | reflexivity | simpl; lia |].
  exists docs. split; [exact Hdocs|].
  destruct (Hbounds docs Hdocs) as (_ & _ & Hexact).
  apply Hexact; [reflexivity | simpl; lia].
Defined.

(** C3, the claim as stated fails: two fits of the toy index for the query
    "kitten", both meeting the contract of the solver, one ending on the
    weights [[1; 0]] and one on [[1; -2]].  The call with threshold 3/10
    and the first fit returns "cat" alone (the score of "car" is about
    0.25); the call with threshold 7/20 and the second fit returns "cat"
    and "car" (the score of "car" is about 0.375). *)
Lemma threshold_count_rises_between_fits :
  (forall w x y s,
     linear_decision_function w x y = inr s -> length s = length x)
  /\ (forall w x y (c : Q),
        Forall (eq c) y -> linear_decision_function w x y = inl ValueError)
  /\ ((3 # 10) <= (7 # 20))%Q
  /\ toy_run_with [1; 0]%Q
       (with_relevancy_threshold (Some (3 # 10)%Q) toy_retriever) "kitten"
     = inr [Document_of_text "cat"]
  /\ toy_run_with [1; -2]%Q
       (with_relevancy_threshold (Some (7 # 20)%Q) toy_retriever) "kitten"
     = inr [Document_of_text "cat"; Document_of_text "car"].
Proof.
  split; [exact linear_decision_function_length|].
  split; [exact linear_decision_function_single_class|].
  split; [unfold Qle; simpl; lia|].
  split; reflexivity.
Qed.

(** C3 as amended, on the toy retriever: thresholds 1/5 and 1/2, and two
    fits that yield the same decision values for the query "kitten". *)
Lemma threshold_monotone_for_equal_fits_witness :
  ((1 # 5) <= (1 # 2))%Q
  /\ linear_decision_function [1; 0]%Q
       ([1; 0] :: [[2; 0]; [0; 1]; [1 # 2; 1 # 2]])%Q (labels 4)
     = dot_decision_function
         ([1; 0] :: [[2; 0]; [0; 1]; [1 # 2; 1 # 2]])%Q (labels 4)
  /\ toy_run (with_relevancy_threshold (Some (1 # 5)%Q) toy_retriever)
       "kitten"
     = inr [Document_of_text "cat"; Document_of_text "car"]
  /\ exists docs2,
       toy_run_with [1; 0]%Q
         (with_relevancy_threshold (Some (1 # 2)%Q) toy_retriever)
         "kitten" = inr docs2
       /\ (length docs2 <= 2)%nat.
Proof.
  assert (Ht : ((1 # 5) <= (1 # 2))%Q) by (unfold Qle; simpl; lia).
  split; [exact Ht|]. split; [reflexivity|]. split; [reflexivity|].
  apply (threshold_monotone_for_equal_fits true dot_decision_function
           (linear_decision_function [1; 0]%Q) stable_argsort
           toy_retriever "kitten" 2%nat
           [[2; 0]; [0; 1]; [1 # 2; 1 # 2]]%Q (1 # 5)%Q (1 # 2)%Q
           [Document_of_text "cat"; Document_of_text "car"] Ht);
    reflexivity.
Defined.



(** C5, the claim as stated fails: the retriever that [from_texts] builds
    from no texts, an empty matrix, and a one-row index of the wrong width
    all end in the same [ValueError]; the failure on an empty index is not
    of a kind of its own. *)
Lemma empty_index_error_not_distinct :
  from_texts [] toy_embeddings 4 None = inr empty_retriever
  /\ nrows (index empty_retriever) = O
  /\ nrows (index empty_matrix_retriever) = O
  /\ nrows (index mismatched_retriever) = 1%nat
  /\ toy_run empty_retriever "kitten" = inl ValueError
  /\ toy_run empty_matrix_retriever "kitten" = inl ValueError
  /\ toy_run mismatched_retriever "kitten" = inl ValueError.
Proof. repeat split. Qed.

(** C5 as amended, on the empty retriever. *)
Lemma empty_index_raises_ValueError_witness :
  nrows (index empty_retriever) = O
  /\ toy_run empty_retriever "kitten" = inl ValueError.
Proof.
  split; [reflexivity|].
  apply (empty_index_raises_ValueError true dot_decision_function
           stable_argsort dot_decision_function_single_class);
    reflexivity.
Defined.

(** C9 on the toy documents, whose metadata names a source file. *)
Lemma from_documents_discards_metadata_witness :
  from_documents toy_documents toy_embeddings 2 None = inr toy_retriever
  /\ toy_run toy_retriever "kitten"
     = inr [Document_of_text "cat"; Document_of_text "car"]
  /\ Forall
       (fun d => metadata d = ∅
                 /\ page_content d ∈ map page_content toy_documents)
       [Document_of_text "cat"; Document_of_text "car"].
Proof.
  assert (Hfrom : from_documents toy_documents toy_embeddings 2 None
                  = inr toy_retriever) by reflexivity.
  assert (Hrun : toy_run toy_retriever "kitten"
                 = inr [Document_of_text "cat"; Document_of_text "car"])
    by reflexivity.
  split; [exact Hfrom|]. split; [exact Hrun|].
  exact (proj2 (proj2 (from_documents_discards_metadata true
                         dot_decision_function stable_argsort
                         toy_documents toy_documents toy_embeddings 2 None
                         toy_retriever "kitten" _ Hfrom Hrun))).
Defined.

(** C6, the claim as stated fails: with an explicit embedding function but
    a [None] or empty query the function is not applied, and the store is
    queried without an embedding; and with a TQL query, no embedding and no
    embedding function of either kind, no error is raised and the store is
    queried. *)
Lemma embedding_function_not_applied_without_query :
  embedding_function no_query_args = Some (AsCallable shout)
  /\ embed_calls (fst (toy_search bare_deeplake no_query_args)) = []
  /\ search_requests (fst (toy_search bare_deeplake no_query_args))
     = [EmbeddingRequest None (Some 4) "L2" None None]
  /\ embed_calls (fst (toy_search bare_deeplake empty_query_args)) = []
  /\ search_requests (fst (toy_search bare_deeplake empty_query_args))
     = [EmbeddingRequest None (Some 4) "L2" None None]
  /\ embedding_arg tql_args = None
  /\ resolve_embedding_function bare_deeplake tql_args = None
  /\ search_requests (fst (toy_search bare_deeplake tql_args))
     = [TqlRequest "select * where id == 'a'" None]
  /\ exists docs, snd (toy_search bare_deeplake tql_args) = inr (Docs docs).
Proof. repeat split. by eexists. Qed.

(** C6 as amended, on [_search(query="kitten", k=2)]: the configured
    embedder is called once, on the query, and its vector goes to the
    store. *)
Lemma embedding_resolution_precedence_witness :
  truthy (tql_query (kw query_args)) = None
  /\ embed_calls (fst (toy_search toy_deeplake query_args))
     = [(Default, "kitten")]
  /\ search_requests (fst (toy_search toy_deeplake query_args))
     = [embedding_request query_args (Some (Arr1 [1; 0]%Q))].
Proof.
  split; [reflexivity|].
  exact (embedding_resolution_precedence toy_store
           Mmr.maximal_marginal_relevance toy_deeplake query_args eq_refl).
Defined.



(** C8 on the MMR scenario: candidates 0 and 2 are selected, and the
    scores returned are the store's 1/10 and 9/10. *)
Lemma mmr_scores_are_store_scores_witness :
  exists t out,
    toy_search toy_deeplake mmr_args = (t, inr out)
    /\ exists emb res indices pairs,
         toy_store (embedding_request mmr_args emb) = inr res
         /\ Mmr.maximal_marginal_relevance emb (res_embedding res)
              (Z.min 2 (Z.of_nat (length (res_text res)))) (3 # 10)%Q
            = inr indices
         /\ out = ScoredDocs pairs
         /\ Forall2
              (fun i (p : Document * Q) =>
                 res_score res !! i = Some (snd p)
                 /\ res_text res !! i = Some (page_content (fst p))
                 /\ res_metadata res !! i = Some (metadata (fst p)))
              indices pairs.
Proof.
  eexists _, _. split; [vm_compute; reflexivity|].
  refine (mmr_scores_are_store_scores toy_store Mmr.maximal_marginal_relevance
            toy_deeplake mmr_args _ _ eq_refl eq_refl eq_refl _).
  vm_compute. reflexivity.
Defined.

(** C10, the claim as stated fails: with [query = None], no embedding and
    an embedding function passed, but also a TQL query and
    [return_score=True], the store receives the TQL query, not a request
    with embedding [None], and the call raises [ValueError]. *)
Lemma none_query_with_tql_raises :
  query no_query_tql_args = None
  /\ embedding_arg no_query_tql_args = None
  /\ embedding_function no_query_tql_args = Some (AsCallable shout)
  /\ toy_search bare_deeplake no_query_tql_args
     = ([SearchCall (TqlRequest "select * where id == 'a'" None)],
        inl ValueError).
Proof. repeat split. Qed.

(** C10 on [_search(query=None, embedding_function=shout)]. *)
Lemma none_query_reaches_store_witness :
  embedding_arg no_query_args = None
  /\ truthy (query no_query_args) = None
  /\ embed_calls (fst (toy_search bare_deeplake no_query_args)) = []
  /\ search_requests (fst (toy_search bare_deeplake no_query_args))
     = [embedding_request no_query_args None]
  /\ exists out, snd (toy_search bare_deeplake no_query_args) = inr out.
Proof.
  split; [reflexivity|]. split; [reflexivity|].
  assert (Hfn : embedding_function no_query_args <> None
                \/ _embedding_function bare_deeplake <> None)
    by (left; discriminate).
  destruct (none_query_reaches_store toy_store Mmr.maximal_marginal_relevance
              bare_deeplake no_query_args eq_refl eq_refl eq_refl Hfn)
    as (_ & Hembed & Hreq & Hret).
  split; [exact Hembed|]. split; [exact Hreq|].
  exact (Hret eq_refl _ eq_refl).
Defined.

End Instances.

(** ** More on the SVM retriever *)

Lemma np_array_inr (rows : list Vector) (a : ndarray) :
  np_array rows = inr a ->
  match a with
  | Arr1 v => rows = [] /\ v = []
  | Arr2 d rs => rs = rows /\ rows <> [] /\ Forall (fun r => length r = d) rows
  end.
Proof.
  destruct rows as [|r rest]; simpl.
  - intros [= <-]. done.
  - destruct (forallb (fun r' => Nat.eqb (length r') (length r)) rest)
      eqn:Hall; [|discriminate].
    intros [= <-]. repeat split; [done|].
    constructor; [done|].
    apply Forall_forall. intros r' Hr'.
    rewrite forallb_forall in Hall.
    apply Nat.eqb_eq, Hall. by apply list_elem_of_In.
Qed.

Lemma py_slice_from_1_negative {A} (l : list A) (stop : Z) :
  stop < 0 ->
  length (py_slice l 1 stop)
  = Z.to_nat (Z.of_nat (length l) + stop - 1).
Proof.
  intros Hstop. rewrite py_slice_from_1, length_take, length_drop.
  unfold py_clamp.
  assert (Hlt : (stop <? 0) = true) by (apply Z.ltb_lt; lia).
  rewrite Hlt. lia.
Qed.

Section SvmMore.

Import Svm.

Variable sklearn_installed : bool.
Variable decision_function : list Vector -> list Q -> result (list Q).
Variable argsort : list Q -> list nat.

Hypothesis argsort_perm : forall v, argsort v ≡ₚ seq 0 (length v).
Hypothesis decision_function_length :
  forall x y s, decision_function x y = inr s -> length s = length x.

Abbreviation run :=
  (_get_relevant_documents sklearn_installed decision_function argsort).

(** X2: a retriever built by [from_texts] from at least one text answers
    every query whose embedding has the width of the index as soon as the
    solver returns: no [IndexError] can arise from [texts[row - 1]]; each
    returned document holds one of the texts, and with no threshold and
    [k >= 0] exactly [min(k, number of texts)] documents come back. *)
Theorem from_texts_then_query_returns (txts : list string) (e : Embeddings)
    (k0 : Z) (thr : option Q) (self : SVMRetriever) (query : string)
    (similarities : list Q) :
  from_texts txts e k0 thr = inr self ->
  sklearn_installed = true ->
  txts <> [] ->
  Forall (fun t => length (embed_query e t) = length (embed_query e query))
    txts ->
  decision_function (embed_query e query :: map (embed_query e) txts)
    (labels (S (length txts))) = inr similarities ->
  exists docs,
    run self query = inr docs
    /\ Forall (fun d => page_content d ∈ txts /\ metadata d = ∅) docs
    /\ (thr = None -> 0 <= k0 ->
        length docs = Nat.min (Z.to_nat k0) (length txts)).
Proof.
  intros Hfrom Hsk Hne Hw Hdf.
  unfold from_texts, create_index in Hfrom. inv_bind Hfrom.
  injection Hfrom as <-. apply np_array_inr in Hbind.
  destruct a as [v|d rows].
  { destruct Hbind as [Hmap _]. apply map_eq_nil in Hmap. done. }
  destruct Hbind as (-> & _ & Hd).
  assert (Hdq : d = length (embed_query e query)).
  { destruct txts as [|t0 txts']; [done|].
    apply Forall_cons in Hw as [Hw0 _]. simpl in Hd.
    apply Forall_cons in Hd as [Hd0 _]. congruence. }
  set (self := mkSVMRetriever e (Arr2 d (map (embed_query e) txts)) txts
                 k0 thr).
  assert (Hlen : length (map (embed_query e) txts) = length txts)
    by apply length_map.
  destruct (run_returns sklearn_installed decision_function argsort
              argsort_perm decision_function_length self query d
              (map (embed_query e) txts) similarities)
    as [docs Hdocs]; try done.
  { simpl. by rewrite Hlen. }
  { simpl. lia. }
  exists docs. split; [done|].
  apply (run_inr sklearn_installed decision_function argsort) in Hdocs
    as (d' & rows & sims & order & nz & _ & Hix & _ & Hdf' & Hsw & _ & Hres).
  simpl in Hix. injection Hix as <- <-. simpl in Hres, Hdf'.
  pose proof (top_k_results_inv _ _ _ _ _ Hres) as Hinv. split.
  - clear -Hinv. induction Hinv as [|row doc rows' docs' [Hget Hmeta] _ IH];
      constructor; [|done].
    split; [by eapply py_getitem_elem | done].
  - intros -> Hk. apply Forall2_length in Hinv.
    rewrite meets_threshold_None in Hinv. rewrite <- Hinv.
    rewrite (py_slice_from_1_length order k0 Hk).
    assert (Hx : length (embed_query e query :: map (embed_query e) txts)
                 = S (length (map (embed_query e) txts))) by done.
    destruct (corrected_order_spec decision_function argsort argsort_perm
                decision_function_length _ _ _ _ _ Hx Hdf' Hsw) as [Hperm _].
    apply Permutation_length in Hperm. rewrite length_seq, Hlen in Hperm.
    lia.
Qed.


(** X4: a negative [k] is not rejected.  With no threshold, [k = -1] gives
    the empty list, and [k <= -2] gives [N + k + 1] documents (none when
    that is negative): the slice [sorted_ix[1 : k + 1]] then counts its end
    from the back. *)
Theorem negative_k_result_length (self : SVMRetriever) (query : string)
    (docs : list Document) :
  run self query = inr docs ->
  relevancy_threshold self = None ->
  k self < 0 ->
  (k self = -1 -> docs = [])
  /\ (k self < -1 ->
      length docs = Z.to_nat (Z.of_nat (nrows (index self)) + k self + 1)).
Proof.
  intros Hrun Hthr Hk.
  apply (run_inr sklearn_installed decision_function argsort) in Hrun
    as (d & rows & sims & order & nz & _ & Hix & _ & Hdf & Hsw & _ & Hres).
  rewrite Hix. simpl nrows.
  assert (Hx : length (embed_query (embeddings self) query :: rows)
               = S (length rows)) by done.
  destruct (corrected_order_spec decision_function argsort argsort_perm
              decision_function_length _ _ _ _ _ Hx Hdf Hsw) as [Hperm _].
  apply Permutation_length in Hperm. rewrite length_seq in Hperm.
  apply top_k_results_inv, Forall2_length in Hres.
  rewrite Hthr, meets_threshold_None in Hres. split.
  - intros Hk1. rewrite Hk1 in Hres. change (-1 + 1) with 0 in Hres.
    rewrite py_slice_from_1 in Hres. unfold py_clamp in Hres.
    change (0 <? 0) with false in Hres. cbv iota in Hres.
    rewrite length_take in Hres.
    apply length_zero_iff_nil. lia.
  - intros Hk2. rewrite <- Hres, py_slice_from_1_negative by lia. lia.
Qed.


End SvmMore.

(** ** More on the Deep Lake search *)

Section DeepLakeMore.

Import DeepLake.

Variable vectorstore_search : search_request -> result search_result.
Variable maximal_marginal_relevance :
  option ndarray -> list Vector -> Z -> Q -> result (list nat).

Abbreviation search := (_search vectorstore_search maximal_marginal_relevance).
Abbreviation select :=
  (search_and_select vectorstore_search maximal_marginal_relevance).

(** [_search] with a TQL query. *)
Lemma search_tql (self : DeepLake) (a : search_args) (tql : string) :
  truthy (tql_query (kw a)) = Some tql ->
  search self a =
    ([SearchCall (TqlRequest tql (exec_option a))],
     match vectorstore_search (TqlRequest tql (exec_option a)) with
     | inl err => inl err
     | inr res =>
         if return_score a then inl ValueError
         else inr (Docs (zip_with mkDocument (res_text res)
                           (res_metadata res)))
     end).
Proof.
  intros Htql. unfold _search. rewrite Htql.
  unfold _search_tql, call_search, emit, lift. simpl.
  destruct (vectorstore_search _) as [err|res]; simpl; [done|].
  by destruct (return_score a).
Qed.

(** X7: with a TQL query, [_search] sends the store that query and nothing
    else happens: no embedding call, no MMR selection, and the outcome
    depends on no argument but [exec_option] and [return_score]; in
    particular [use_maximal_marginal_relevance], [k], [filter], [query] and
    [embedding] are silently ignored.  With [return_score=True] it never
    returns: the store is queried and then [ValueError] is raised. *)
Theorem tql_search_ignores_other_arguments (self self' : DeepLake)
    (a a' : search_args) (tql : string) :
  truthy (tql_query (kw a)) = Some tql ->
  truthy (tql_query (kw a')) = Some tql ->
  exec_option a = exec_option a' ->
  return_score a = return_score a' ->
  search self a = search self' a'
  /\ search_requests (fst (search self a))
     = [TqlRequest tql (exec_option a)]
  /\ embed_calls (fst (search self a)) = []
  /\ mmr_targets (fst (search self a)) = []
  /\ (return_score a = true ->
      forall out, snd (search self a) <> inr out).
Proof.
  intros Ha Ha' Hexec Hscore.
  rewrite (search_tql self a tql Ha), (search_tql self' a' tql Ha').
  rewrite <- Hexec, <- Hscore. repeat split; try done.
  intros Hs out. simpl. rewrite Hs.
  by destruct (vectorstore_search _).
Qed.

(** X8: the calls of any run of [_search], in order: at most one call of
    an embedding function, then at most one request to the store, then at
    most one MMR selection, and a selection only after the store has
    answered the request, on the embeddings it returned. *)
Theorem search_call_protocol (self : DeepLake) (a : search_args) :
  exists e s m,
    fst (search self a) = e ++ s ++ m
    /\ (e = [] \/ exists src q, e = [EmbedCall src q])
    /\ (s = [] \/ exists req, s = [SearchCall req])
    /\ (m = []
        \/ exists emb res target lam,
             m = [MmrCall emb (res_embedding res) target lam]
             /\ s = [SearchCall (embedding_request a emb)]
             /\ vectorstore_search (embedding_request a emb) = inr res).
Proof.
  assert (Hsel : forall emb,
            exists s m,
              fst (select self a emb) = s ++ m
              /\ (s = [] \/ exists req, s = [SearchCall req])
              /\ (m = []
                  \/ exists emb' res target lam,
                       m = [MmrCall emb' (res_embedding res) target lam]
                       /\ s = [SearchCall (embedding_request a emb')]
                       /\ vectorstore_search (embedding_request a emb')
                          = inr res)).
  { intros emb.
    pose proof (search_and_select_cases vectorstore_search
                  maximal_marginal_relevance self a emb) as H. simpl in H.
    destruct (vectorstore_search (embedding_request a emb)) as [err|res]
      eqn:Hres.
    - rewrite H. exists [SearchCall (embedding_request a emb)], [].
      repeat split; eauto.
    - destruct (use_maximal_marginal_relevance a); rewrite H.
      + exists [SearchCall (embedding_request a emb)],
          [MmrCall emb (res_embedding res)
             (Z.min (k a) (Z.of_nat (length (res_text res))))
             (get_lambda_mult (kw a))].
        split; [reflexivity|]. split; [eauto|]. right.
        by exists emb, res, (Z.min (k a) (Z.of_nat (length (res_text res)))),
             (get_lambda_mult (kw a)).
      + exists [SearchCall (embedding_request a emb)], [].
        repeat split; eauto. }
  destruct (truthy (tql_query (kw a))) as [tql|] eqn:Htql.
  - rewrite (search_tql self a tql Htql).
    exists [], [SearchCall (TqlRequest tql (exec_option a))], [].
    repeat split; eauto.
  - rewrite (search_cases vectorstore_search maximal_marginal_relevance
               self a Htql).
    destruct (embedding_arg a) as [e|].
    + destruct (to_query_array e) as [err|arr].
      * exists [], [], []. repeat split; eauto.
      * destruct (Hsel (Some arr)) as (s & m & -> & Hs & Hm).
        exists [], s, m. repeat split; eauto.
    + destruct (resolve_embedding_function self a) as [[src f]|].
      * destruct (truthy (query a)) as [q|].
        -- destruct (to_query_array (f q)) as [err|arr].
           ++ exists [EmbedCall src q], [], []. repeat split; eauto.
           ++ destruct (Hsel (Some arr)) as (s & m & Heq & Hs & Hm).
              exists [EmbedCall src q], s, m. simpl. rewrite Heq.
              repeat split; eauto.
        -- destruct (Hsel None) as (s & m & -> & Hs & Hm).
           exists [], s, m. repeat split; eauto.
      * exists [], [], []. repeat split; eauto.
Qed.

(** X9: without MMR (and without a TQL query) a returning [_search] hands
    back the store's candidates untouched and in the store's order: the
    [i]-th document is the [i]-th text with the [i]-th metadata, paired
    with the [i]-th score when scores are asked for, up to the shortest of
    the lists. *)
Theorem plain_search_keeps_store_order (self : DeepLake) (a : search_args)
    (t : list event) (out : search_output) :
  truthy (tql_query (kw a)) = None ->
  use_maximal_marginal_relevance a = false ->
  search self a = (t, inr out) ->
  exists emb res,
    vectorstore_search (embedding_request a emb) = inr res
    /\ (return_score a = false ->
        out = Docs (zip_with mkDocument (res_text res) (res_metadata res))
        /\ output_length out
           = Nat.min (length (res_text res)) (length (res_metadata res)))
    /\ (return_score a = true ->
        out = ScoredDocs
                (zip (zip_with mkDocument (res_text res) (res_metadata res))
                   (res_score res))
        /\ output_length out
           = Nat.min (Nat.min (length (res_text res))
                        (length (res_metadata res)))
               (length (res_score res))).
Proof.
  intros Htql Hmmr Hrun.
  destruct (search_inr vectorstore_search maximal_marginal_relevance
              self a t out Htql Hrun) as (emb & t0 & t1 & Hsel & _ & _ & _).
  destruct (search_and_select_inr vectorstore_search
              maximal_marginal_relevance self a emb t1 out Hsel)
    as (res & Hres & H).
  rewrite Hmmr in H. destruct H as [_ ->].
  exists emb, res. split; [done|].
  split; intros ->; (split; [done|]); simpl.
  - apply length_zip_with.
  - by rewrite length_zip, length_zip_with.
Qed.

End DeepLakeMore.

(** ** The public search methods *)

Section DeepLakeApiProperties.

Import DeepLake DeepLakeApi.

Variable vectorstore_search : search_request -> result search_result.
Variable maximal_marginal_relevance :
  option ndarray -> list Vector -> Z -> Q -> result (list nat).

Abbreviation select :=
  (search_and_select vectorstore_search maximal_marginal_relevance).

(** Lines 355-393 without MMR. *)
Lemma select_plain (self : DeepLake) (a : search_args)
    (emb : option ndarray) :
  use_maximal_marginal_relevance a = false ->
  select self a emb =
    ([SearchCall (embedding_request a emb)],
     match vectorstore_search (embedding_request a emb) with
     | inl err => inl err
     | inr res =>
         inr (if return_score a
              then ScoredDocs
                     (zip (zip_with mkDocument (res_text res)
                             (res_metadata res)) (res_score res))
              else Docs (zip_with mkDocument (res_text res)
                           (res_metadata res)))
     end).
Proof.
  intros Hmmr.
  pose proof (search_and_select_cases vectorstore_search
                maximal_marginal_relevance self a emb) as H. simpl in H.
  destruct (vectorstore_search _) as [err|res]; [done|].
  by rewrite Hmmr in H.
Qed.

(** X10: [similarity_search_by_vector] with an embedding needs no
    embedding function: whatever is or is not configured, none is called,
    the missing-embedder [ValueError] cannot arise, the store is asked once
    for [k] candidates (4 by default) with the embedding converted to an
    array, no MMR selection runs, and what comes back is a list of
    documents without scores. *)
Theorem similarity_search_by_vector_needs_no_embedder (self : DeepLake)
    (c : keywords) (e : embedding_value) :
  kw_embedding c = Some (Some e) ->
  kw_use_maximal_marginal_relevance c = None ->
  kw_return_score c = None ->
  truthy (flat (kw_tql_query c)) = None ->
  exists m,
    similarity_search_by_vector vectorstore_search
      maximal_marginal_relevance self c = Ran m
    /\ embed_calls (fst m) = []
    /\ mmr_targets (fst m) = []
    /\ match to_query_array e with
       | inl err => m = ([], inl err)
       | inr arr =>
           search_requests (fst m)
           = [EmbeddingRequest (Some arr) (Some (default 4 (kw_k c)))
                (default "L2" (kw_distance_metric c)) (flat (kw_filter c))
                (flat (kw_exec_option c))]
       end
    /\ (forall out, snd m = inr out -> exists docs, out = Docs docs).
Proof.
  intros Hemb Hmmr Hscore Htql.
  unfold similarity_search_by_vector. rewrite Hemb, Hmmr, Hscore. simpl.
  eexists. split; [reflexivity|].
  set (a := bind_search c (flat (kw_query c)) (Some e) (default 4 (kw_k c))
              false (default (Some 20) (kw_fetch_k c)) false
              (flat (kw_exec_option c)) (kw_lambda_mult c)).
  rewrite (search_cases vectorstore_search maximal_marginal_relevance
             self a Htql).
  change (embedding_arg a) with (Some e). cbv beta iota.
  destruct (to_query_array e) as [err|arr];
    [cbn [fst snd]; repeat split; done|].
  rewrite (select_plain self a (Some arr) eq_refl). simpl.
  repeat split; try done.
  intros out. destruct (vectorstore_search _) as [err|res]; [done|].
  intros [= <-]. eauto.
Qed.

(** X11: [similarity_search] (no TQL query) never runs an MMR selection
    and never returns scores; every request it sends asks the store for
    [k] candidates, 4 when [k] is not given. *)
Theorem similarity_search_is_plain (self : DeepLake) (c : keywords)
    (query : option string) :
  kw_query c = Some query ->
  kw_use_maximal_marginal_relevance c = None ->
  kw_return_score c = None ->
  truthy (flat (kw_tql_query c)) = None ->
  exists m,
    similarity_search vectorstore_search maximal_marginal_relevance self c
    = Ran m
    /\ mmr_targets (fst m) = []
    /\ Forall
         (fun req =>
            exists emb,
              req = EmbeddingRequest emb (Some (default 4 (kw_k c)))
                      (default "L2" (kw_distance_metric c))
                      (flat (kw_filter c)) (flat (kw_exec_option c)))
         (search_requests (fst m))
    /\ (forall out, snd m = inr out -> exists docs, out = Docs docs).
Proof.
  intros Hq Hmmr Hscore Htql.
  unfold similarity_search. rewrite Hq, Hmmr, Hscore. simpl.
  eexists. split; [reflexivity|].
  set (a := bind_search c query (flat (kw_embedding c)) (default 4 (kw_k c))
              false (default (Some 20) (kw_fetch_k c)) false
              (flat (kw_exec_option c)) (kw_lambda_mult c)).
  rewrite (search_cases vectorstore_search maximal_marginal_relevance
             self a Htql).
  assert (Hsel : forall emb,
            mmr_targets (fst (select self a emb)) = []
            /\ Forall
                 (fun req =>
                    exists emb',
                      req = EmbeddingRequest emb' (Some (default 4 (kw_k c)))
                              (default "L2" (kw_distance_metric c))
                              (flat (kw_filter c)) (flat (kw_exec_option c)))
                 (search_requests (fst (select self a emb)))
            /\ (forall out, snd (select self a emb) = inr out ->
                exists docs, out = Docs docs)).
  { intros emb. rewrite (select_plain self a emb eq_refl). simpl.
    repeat split; try done.
    - constructor; [by exists emb | constructor].
    - intros out. destruct (vectorstore_search _) as [err|res]; [done|].
      intros [= <-]. eauto. }
  destruct (embedding_arg a) as [e|].
  - destruct (to_query_array e) as [err|arr]; [|apply Hsel].
    repeat split; try done; constructor.
  - destruct (resolve_embedding_function self a) as [[src f]|].
    + destruct (truthy (DeepLake.query a)) as [q|]; [|apply Hsel].
      destruct (to_query_array (f q)) as [err|arr].
      * repeat split; try done; constructor.
      * destruct (Hsel (Some arr)) as (H1 & H2 & H3).
        cbn [fst snd]. repeat split; done.
    + repeat split; try done; constructor.
Qed.

(** X12: [similarity_search_with_score] (no TQL query, MMR not asked for)
    returns, when it returns, one pair per candidate in the store's order:
    the [i]-th text and metadata with the store's [i]-th score. *)
Theorem similarity_search_with_score_pairs (self : DeepLake) (c : keywords)
    (query : option string) (t : list event) (out : search_output) :
  kw_query c = Some query ->
  kw_return_score c = None ->
  default false (kw_use_maximal_marginal_relevance c) = false ->
  truthy (flat (kw_tql_query c)) = None ->
  similarity_search_with_score vectorstore_search
    maximal_marginal_relevance self c = Ran (t, inr out) ->
  exists req res,
    search_requests t = [req]
    /\ vectorstore_search req = inr res
    /\ out = ScoredDocs
               (zip (zip_with mkDocument (res_text res) (res_metadata res))
                  (res_score res)).
Proof.
  intros Hq Hscore Hmmr Htql Hrun.
  unfold similarity_search_with_score in Hrun.
  rewrite Hq, Hscore, Hmmr in Hrun. simpl in Hrun. injection Hrun as Hrun.
  set (a := bind_search c query (flat (kw_embedding c)) (default 4 (kw_k c))
              false (default (Some 20) (kw_fetch_k c)) true
              (flat (kw_exec_option c)) (kw_lambda_mult c)) in *.
  destruct (search_inr vectorstore_search maximal_marginal_relevance
              self a t out Htql Hrun) as (emb & t0 & t1 & Hsel & -> & Hs0 & _).
  rewrite (select_plain self a emb eq_refl) in Hsel.
  injection Hsel as <- Hout.
  destruct (vectorstore_search (embedding_request a emb)) as [err|res]
    eqn:Hres; [discriminate|].
  injection Hout as <-.
  exists (embedding_request a emb), res. repeat split; try done.
  unfold search_requests in *. by rewrite omap_app, Hs0.
Qed.

(** X13: [similarity_search_with_score] cannot be combined with a TQL
    query: the store is sent the query, and then the call raises (the
    store's exception, or [ValueError] once the store has answered); it
    never returns. *)
Theorem similarity_search_with_score_rejects_tql (self : DeepLake)
    (c : keywords) (query : option string) (tql : string) :
  kw_query c = Some query ->
  kw_return_score c = None ->
  truthy (flat (kw_tql_query c)) = Some tql ->
  exists t err,
    similarity_search_with_score vectorstore_search
      maximal_marginal_relevance self c = Ran (t, inl err)
    /\ search_requests t = [TqlRequest tql (flat (kw_exec_option c))]
    /\ embed_calls t = []
    /\ (forall res,
         vectorstore_search (TqlRequest tql (flat (kw_exec_option c)))
         = inr res -> err = ValueError).
Proof.
  intros Hq Hscore Htql.
  unfold similarity_search_with_score. rewrite Hq, Hscore. simpl.
  set (a := bind_search c query (flat (kw_embedding c)) (default 4 (kw_k c))
              (default false (kw_use_maximal_marginal_relevance c))
              (default (Some 20) (kw_fetch_k c)) true
              (flat (kw_exec_option c)) (kw_lambda_mult c)).
  unfold _search. change (tql_query (kw a)) with (flat (kw_tql_query c)).
  rewrite Htql. unfold _search_tql, call_search, emit, lift. simpl.
  destruct (vectorstore_search _) as [err|res] eqn:Hres; simpl.
  - exists [SearchCall (TqlRequest tql (flat (kw_exec_option c)))], err.
    repeat split; try done.
  - exists [SearchCall (TqlRequest tql (flat (kw_exec_option c)))],
      ValueError.
    repeat split; try done.
Qed.

(** X14: [max_marginal_relevance_search_by_vector] (no TQL query) calls no
    embedding function, asks the store once for [fetch_k] candidates (20
    by default) rather than [k], and runs one MMR selection, with target
    [min(k, number of fetched texts)] ([k] is 4 by default) on the
    embeddings the store returned. *)
Theorem mmr_search_by_vector_fetches_fetch_k (self : DeepLake)
    (c : keywords) (e : embedding_value) (t : list event)
    (out : search_output) :
  kw_embedding c = Some (Some e) ->
  kw_use_maximal_marginal_relevance c = None ->
  truthy (flat (kw_tql_query c)) = None ->
  max_marginal_relevance_search_by_vector vectorstore_search
    maximal_marginal_relevance self c = Ran (t, inr out) ->
  exists arr res,
    to_query_array e = inr arr
    /\ embed_calls t = []
    /\ search_requests t
       = [EmbeddingRequest (Some arr) (default (Some 20) (kw_fetch_k c))
            (default "L2" (kw_distance_metric c)) (flat (kw_filter c))
            (flat (kw_exec_option c))]
    /\ vectorstore_search
         (EmbeddingRequest (Some arr) (default (Some 20) (kw_fetch_k c))
            (default "L2" (kw_distance_metric c)) (flat (kw_filter c))
            (flat (kw_exec_option c))) = inr res
    /\ t = [SearchCall
             (EmbeddingRequest (Some arr) (default (Some 20) (kw_fetch_k c))
                (default "L2" (kw_distance_metric c)) (flat (kw_filter c))
                (flat (kw_exec_option c)));
           MmrCall (Some arr) (res_embedding res)
             (Z.min (default 4 (kw_k c)) (Z.of_nat (length (res_text res))))
             (default (1 # 2)%Q (kw_lambda_mult c))].
Proof.
  intros Hemb Hmmr Htql Hrun.
  unfold max_marginal_relevance_search_by_vector in Hrun.
  rewrite Hemb, Hmmr in Hrun. simpl in Hrun. injection Hrun as Hrun.
  set (a := bind_search c (flat (kw_query c)) (Some e) (default 4 (kw_k c))
              true (default (Some 20) (kw_fetch_k c))
              (default false (kw_return_score c)) (flat (kw_exec_option c))
              (Some (default (1 # 2)%Q (kw_lambda_mult c)))) in *.
  rewrite (search_cases vectorstore_search maximal_marginal_relevance
             self a Htql) in Hrun.
  change (embedding_arg a) with (Some e) in Hrun. cbv beta iota in Hrun.
  destruct (to_query_array e) as [err|arr]; [discriminate|].
  destruct (search_and_select_inr vectorstore_search
              maximal_marginal_relevance self a (Some arr) t out Hrun)
    as (res & Hres & H).
  change (use_maximal_marginal_relevance a) with true in H.
  destruct H as (indices & scores & texts & metadatas
                 & Hcall & Hsc & Htx & Hmd & -> & ->).
  exists arr, res. repeat split; done.
Qed.

End DeepLakeApiProperties.

(** ** Adding texts *)

Section IngestProperties.

Import Ingest.

Variable vectorstore_add : add_request -> result (list string).

(** X15: a one-shot iterator as [texts] needs explicit [metadatas].  With
    [metadatas=None] the iterator is used up by [len(list(texts))], the
    second [list(texts)] is empty, and [add_texts] raises the "shouldn't be
    empty" [ValueError] whatever the iterator held, without reaching the
    store; with [metadatas] given, the items of the iterator are what is
    sent. *)
Theorem add_texts_iterator_needs_metadatas (self : handle)
    (items : list string) (m : list (gmap string string))
    (ids : option (list string)) (e : Embeddings) :
  add_texts vectorstore_add self (PyIteratorOf items) None ids
  = inl (ValueErrorMsg texts_empty_message)
  /\ (items <> [] -> _embedding_function self = Some e ->
      prepare_add self (PyIteratorOf items) (Some m) ids
      = inr (mkAddRequest (PyListOf items) m (PyListOf items) "embedding" e
               true (ids_kwargs self ids))).
Proof.
  split; [reflexivity|].
  intros Hne He. unfold prepare_add. simpl.
  destruct items as [|i rest]; [done|]. simpl. by rewrite He.
Qed.

(** X16: [texts=None] raises [TypeError] (from [list(None)]), and the
    [ValueError] "`texts` parameter shouldn't be None." is raised on no
    input at all: the test [texts is None] comes after [texts] has been
    made a list. *)
Theorem add_texts_none_message_is_dead (self : handle) (texts : iterable)
    (metadatas : option (list (gmap string string)))
    (ids : option (list string)) :
  add_texts vectorstore_add self PyNone metadatas ids = inl TypeErr
  /\ add_texts vectorstore_add self texts metadatas ids
     <> inl (ValueErrorMsg texts_none_message).
Proof.
  split.
  - by destruct metadatas.
  - unfold add_texts, prepare_add.
    destruct metadatas as [m|], texts as [|l|l|l]; simpl; try discriminate;
      (destruct l as [|i rest]; simpl; [discriminate|]);
      (destruct (_embedding_function self); [|discriminate]);
      by destruct (vectorstore_add _).
Qed.

(** X17: [add_texts] on a list or tuple of texts.  An empty one raises the
    "shouldn't be empty" [ValueError], a missing embedder raises
    [AttributeError], both before the store is reached.  Otherwise the
    store receives one request: the texts as text and as embedding data,
    the configured embedder, the given metadatas as they are (their number
    is not compared with the texts) or one empty dictionary per text when
    none are given, and the ids only when there are any, under the keyword
    [ids] or [id] according to [_id_tensor_name]; the store's ids are
    returned. *)
Theorem add_texts_on_a_list (self : handle) (texts : iterable)
    (items : list string) (metadatas : option (list (gmap string string)))
    (ids : option (list string)) :
  texts = PyListOf items \/ texts = PyTupleOf items ->
  let result := add_texts vectorstore_add self texts metadatas ids in
  (items = [] -> result = inl (ValueErrorMsg texts_empty_message))
  /\ (items <> [] -> _embedding_function self = None ->
      result = inl AttributeError)
  /\ (forall e, items <> [] -> _embedding_function self = Some e ->
      let req :=
        mkAddRequest (PyListOf items)
          (default (repeat ∅ (length items)) metadatas)
          (PyListOf items) "embedding" e true
          (match ids with
           | Some (i :: rest) =>
               Some (if String.eqb (_id_tensor_name self) "ids"
                     then "ids" else "id", i :: rest)
           | _ => None
           end) in
      prepare_add self texts metadatas ids = inr req
      /\ result = match vectorstore_add req with
                  | inl err => inl (StoreRaised err)
                  | inr new_ids => inr new_ids
                  end
      /\ (metadatas = None -> length (add_metadata req) = length items)).
Proof.
  intros Htexts. cbv zeta. unfold add_texts, prepare_add.
  split; [|split].
  - intros ->. by destruct Htexts as [-> | ->], metadatas.
  - intros Hne He.
    destruct items as [|i rest]; [done|].
    destruct Htexts as [-> | ->], metadatas; simpl; by rewrite He.
  - intros e Hne He.
    assert (Hids : ids_kwargs self ids
                   = match ids with
                     | Some (i :: rest) =>
                         Some (if String.eqb (_id_tensor_name self) "ids"
                               then "ids" else "id", i :: rest)
                     | _ => None
                     end).
    { unfold ids_kwargs. destruct ids as [[|i rest]|]; try done.
      by destruct (String.eqb _ _). }
    rewrite <- Hids.
    destruct items as [|i rest]; [done|].
    split; [|split].
    + destruct Htexts as [-> | ->], metadatas; simpl; by rewrite He.
    + destruct Htexts as [-> | ->], metadatas; simpl; by rewrite He.
    + intros ->. simpl. by rewrite repeat_length.
Qed.

End IngestProperties.

(** ** The further properties on the concrete inputs *)

Section MoreInstances.

Import Svm DeepLake DeepLakeApi Examples MoreExamples.

(** X2 on the toy texts. *)
Lemma from_texts_then_query_returns_witness :
  from_texts ["cat"; "dog"; "car"] toy_embeddings 2 None = inr toy_retriever
  /\ exists docs,
       toy_run toy_retriever "kitten" = inr docs
       /\ Forall
            (fun d => page_content d ∈ ["cat"; "dog"; "car"]
                      /\ metadata d = ∅) docs
       /\ (@None Q = None -> 0 <= 2 ->
           length docs = Nat.min (Z.to_nat 2) 3).
Proof.
  split; [reflexivity|].
  eapply (from_texts_then_query_returns true dot_decision_function
            stable_argsort stable_argsort_perm dot_decision_function_length
            ["cat"; "dog"; "car"] toy_embeddings 2 None toy_retriever
            "kitten").
  - reflexivity.
  - reflexivity.
  - discriminate.
  - repeat constructor.
  - reflexivity.
Defined.


(** X4 on the toy index with [k = -2]: two of the three texts come back. *)
Lemma negative_k_result_length_witness :
  toy_run negative_k_retriever "kitten"
  = inr [Document_of_text "cat"; Document_of_text "car"]
  /\ Svm.k negative_k_retriever < 0
  /\ (Svm.k negative_k_retriever < -1 ->
      length [Document_of_text "cat"; Document_of_text "car"]
      = Z.to_nat (Z.of_nat 3 + -2 + 1)).
Proof.
  assert (Hk : Svm.k negative_k_retriever < 0) by (simpl; lia).
  split; [reflexivity|]. split; [exact Hk|].
  exact (proj2 (negative_k_result_length true dot_decision_function
                  stable_argsort stable_argsort_perm
                  dot_decision_function_length negative_k_retriever
                  "kitten" _ eq_refl eq_refl Hk)).
Defined.


(** X7 on a TQL call, against the same call with MMR, another [k] and an
    explicit embedding. *)
Lemma tql_search_ignores_other_arguments_witness :
  toy_search bare_deeplake tql_args
  = toy_search toy_deeplake
      (mkSearchArgs (Some "kitten") (Some (PyList [1; 0]%Q)) None 7 "cos"
         true (Some 3) None false None
         (mkKwargs (Some "select * where id == 'a'") None))
  /\ search_requests (fst (toy_search bare_deeplake tql_args))
     = [TqlRequest "select * where id == 'a'" None]
  /\ embed_calls (fst (toy_search bare_deeplake tql_args)) = []
  /\ mmr_targets (fst (toy_search bare_deeplake tql_args)) = [].
Proof.
  destruct (tql_search_ignores_other_arguments toy_store
              Mmr.maximal_marginal_relevance bare_deeplake toy_deeplake
              tql_args
              (mkSearchArgs (Some "kitten") (Some (PyList [1; 0]%Q)) None 7
                 "cos" true (Some 3) None false None
                 (mkKwargs (Some "select * where id == 'a'") None))
              "select * where id == 'a'" eq_refl eq_refl eq_refl eq_refl)
    as (H1 & H2 & H3 & H4 & _).
  repeat split; assumption.
Defined.

(** X9 on [_search(query="kitten", k=2)]: the two candidates the store
    returns, in its order. *)
Lemma plain_search_keeps_store_order_witness :
  exists t out,
    toy_search toy_deeplake query_args = (t, inr out)
    /\ exists emb res,
         toy_store (embedding_request query_args emb) = inr res
         /\ (false = false ->
             out = Docs (zip_with mkDocument (res_text res)
                           (res_metadata res))
             /\ output_length out
                = Nat.min (length (res_text res))
                    (length (res_metadata res))).
Proof.
  eexists _, _. split; [reflexivity|].
  destruct (plain_search_keeps_store_order toy_store
              Mmr.maximal_marginal_relevance toy_deeplake query_args _ _
              eq_refl eq_refl eq_refl) as (emb & res & Hres & Hplain & _).
  exists emb, res. split; [exact Hres | exact Hplain].
Defined.

(** X10 on [similarity_search_by_vector(embedding=[1, 0], k=2)] with no
    embedding function configured. *)
Lemma similarity_search_by_vector_needs_no_embedder_witness :
  exists m,
    similarity_search_by_vector toy_store Mmr.maximal_marginal_relevance
      bare_deeplake vector_keywords = Ran m
    /\ embed_calls (fst m) = []
    /\ mmr_targets (fst m) = []
    /\ search_requests (fst m)
       = [EmbeddingRequest (Some (Arr1 [1; 0]%Q)) (Some 2) "L2" None None]
    /\ (forall out, snd m = inr out -> exists docs, out = Docs docs).
Proof.
  exact (similarity_search_by_vector_needs_no_embedder toy_store
           Mmr.maximal_marginal_relevance bare_deeplake vector_keywords
           (PyList [1; 0]%Q) eq_refl eq_refl eq_refl eq_refl).
Defined.

(** X11 on [similarity_search(query="kitten")]. *)
Lemma similarity_search_is_plain_witness :
  exists m,
    similarity_search toy_store Mmr.maximal_marginal_relevance toy_deeplake
      query_keywords = Ran m
    /\ mmr_targets (fst m) = []
    /\ Forall
         (fun req =>
            exists emb, req = EmbeddingRequest emb (Some 4) "L2" None None)
         (search_requests (fst m))
    /\ (forall out, snd m = inr out -> exists docs, out = Docs docs).
Proof.
  exact (similarity_search_is_plain toy_store Mmr.maximal_marginal_relevance
           toy_deeplake query_keywords (Some "kitten") eq_refl eq_refl
           eq_refl eq_refl).
Defined.

(** X12 on [similarity_search_with_score(query="kitten")]. *)
Lemma similarity_search_with_score_pairs_witness :
  exists t out,
    similarity_search_with_score toy_store Mmr.maximal_marginal_relevance
      toy_deeplake query_keywords = Ran (t, inr out)
    /\ exists req res,
         search_requests t = [req]
         /\ toy_store req = inr res
         /\ out = ScoredDocs
                    (zip (zip_with mkDocument (res_text res)
                            (res_metadata res)) (res_score res)).
Proof.
  eexists _, _. split; [reflexivity|].
  exact (similarity_search_with_score_pairs toy_store
           Mmr.maximal_marginal_relevance toy_deeplake query_keywords
           (Some "kitten") _ _ eq_refl eq_refl eq_refl eq_refl eq_refl).
Defined.

(** X13 on [similarity_search_with_score(query=None, tql_query=...)]. *)
Lemma similarity_search_with_score_rejects_tql_witness :
  exists t err,
    similarity_search_with_score toy_store Mmr.maximal_marginal_relevance
      bare_deeplake tql_keywords = Ran (t, inl err)
    /\ search_requests t = [TqlRequest "select * where id == 'a'" None]
    /\ embed_calls t = []
    /\ (forall res,
         toy_store (TqlRequest "select * where id == 'a'" None) = inr res ->
         err = ValueError).
Proof.
  exact (similarity_search_with_score_rejects_tql toy_store
           Mmr.maximal_marginal_relevance bare_deeplake tql_keywords None
           "select * where id == 'a'" eq_refl eq_refl eq_refl).
Defined.

(** X14 on [max_marginal_relevance_search_by_vector(embedding=[1, 0], k=2,
    fetch_k=3, lambda_mult=0.3)]. *)
Lemma mmr_search_by_vector_fetches_fetch_k_witness :
  exists t out,
    max_marginal_relevance_search_by_vector toy_store
      Mmr.maximal_marginal_relevance bare_deeplake vector_keywords
    = Ran (t, inr out)
    /\ exists arr res,
         to_query_array (PyList [1; 0]%Q) = inr arr
         /\ embed_calls t = []
         /\ search_requests t
            = [EmbeddingRequest (Some arr) (Some 3) "L2" None None]
         /\ toy_store (EmbeddingRequest (Some arr) (Some 3) "L2" None None)
            = inr res
         /\ t = [SearchCall
                  (EmbeddingRequest (Some arr) (Some 3) "L2" None None);
                MmrCall (Some arr) (res_embedding res)
                  (Z.min 2 (Z.of_nat (length (res_text res))))
                  (3 # 10)%Q].
Proof.
  eexists _, _. split; [vm_compute; reflexivity|].
  refine (mmr_search_by_vector_fetches_fetch_k toy_store
            Mmr.maximal_marginal_relevance bare_deeplake vector_keywords
            (PyList [1; 0]%Q) _ _ eq_refl eq_refl eq_refl _).
  vm_compute. reflexivity.
Defined.

(** X17 on two texts without metadatas, with ids. *)
Lemma add_texts_on_a_list_witness :
  Ingest.add_texts toy_add toy_handle (Ingest.PyListOf ["cat"; "dog"]) None
    (Some ["a"; "b"])
  = inr ["row"; "row"]
  /\ Ingest.prepare_add toy_handle (Ingest.PyListOf ["cat"; "dog"]) None
       (Some ["a"; "b"])
     = inr (Ingest.mkAddRequest (Ingest.PyListOf ["cat"; "dog"]) [∅; ∅]
              (Ingest.PyListOf ["cat"; "dog"]) "embedding" toy_embeddings
              true (Some ("ids", ["a"; "b"]))).
Proof.
  assert (Hne : ["cat"; "dog"] <> @nil string) by discriminate.
  destruct (add_texts_on_a_list toy_add toy_handle
              (Ingest.PyListOf ["cat"; "dog"]) ["cat"; "dog"] None
              (Some ["a"; "b"]) (or_introl eq_refl))
    as (_ & _ & Hreq).
  destruct (Hreq toy_embeddings Hne eq_refl) as (Hprep & Hres & _).
  split; [exact Hres | exact Hprep].
Defined.

End MoreInstances.
